(** * Obsidian "Google Docs" plugin: authorization and push/open flows

    A shallow embedding of [src/main.ts] (class [GoogleDocsPlugin]) and of
    the earlier single-function variant of [createGoogleDoc].

    The plugin is asynchronous JavaScript.  Every [async] method is modelled
    as a computation over the plugin's mutable fields and the remote store,
    which
    - returns a value, throws (the promise rejects), or stays suspended on
      an [await] whose promise has not settled;
    - records, in call order, every effect it hands to the outside world
      (notices, clipboard writes, browser launches, [saveData], and each
      call into the [markdown-to-google-docs] library).

    The library functions and the [JSON] built-ins are not part of the
    repository: they are the fields of an environment [Env], and every
    theorem of the development holds for all environments. *)

From Stdlib Require Import String Ascii List Bool ZArith Lia DecimalString.
Import ListNotations.
Local Open Scope string_scope.
Local Open Scope list_scope.

Set Implicit Arguments.
Set Warnings "-notation-for-abbreviation,-register-all".

(** ** Settings ([interface GoogleDocsSettings], [DEFAULT_SETTINGS]) *)

Record GoogleDocsSettings : Type := mkSettings {
  googleDriveFolderId : string;
  credentials : string;
  tokens : string
}.

Definition DEFAULT_SETTINGS : GoogleDocsSettings :=
  {| googleDriveFolderId := ""; credentials := ""; tokens := "" |}.

(** [this.settings.tokens = v] *)
Definition set_tokens (s : GoogleDocsSettings) (v : string) : GoogleDocsSettings :=
  {| googleDriveFolderId := googleDriveFolderId s;
     credentials := credentials s;
     tokens := v |}.

(** [function googleDocsUrl(documentId)] *)
Definition googleDocsUrl (documentId : string) : string :=
  "https://docs.google.com/document/d/" ++ documentId.

(** ** JavaScript outcomes *)

(** What a [throw] carries: the [SyntaxError] of [JSON.parse], or whatever a
    library call throws or rejects with. *)
Inductive JsError : Type :=
| SyntaxError
| Thrown (what : string).

(** The state of an awaited promise. *)
Inductive reply (A : Type) : Type :=
| Resolved (a : A)
| Rejected (e : JsError)
| Pending.
Arguments Rejected {A} e.
Arguments Pending {A}.

(** How a call of an [async] method stands once it cannot run further. *)
Inductive completion (A : Type) : Type :=
| Returned (a : A)
| Threw (e : JsError)
| Blocked.
Arguments Threw {A} e.
Arguments Blocked {A}.

(** The messages of the [new Notice(...)] sites. *)
Definition MSG_ALREADY : string :=
  "Already authenticating, complete authorization.".
Definition MSG_AUTHENTICATE : string :=
  "Authenticate to continue. A browser window will open and authorization url is copied to clipboard.".
Definition MSG_COMPLETE : string := "Authentication complete!".
Definition MSG_OPENING : string := "Opening Google Doc...".
Definition MSG_OPEN_COMMENTS : string :=
  "Document has open comments. Please resolve them before pushing content.".
Definition MSG_UPDATED : string := "Document updated.".

Section Plugin.

(** Opaque JavaScript values: the OAuth client, the local callback
    server, parsed JSON, and the state of the remote document store. *)
Variables Client Server Json Remote : Type.

(** The [JSON] built-ins and the imports from [markdown-to-google-docs].
    [auth] reaches the document functions as returned by [getAuth], which
    may be [undefined] ([None]). *)
Record Env : Type := mkEnv {
  JSON_parse : string -> option Json;          (* [None]: throws SyntaxError *)
  JSON_stringify : Json -> string;
  getClient : string -> JsError + Client;
  hasValidToken : Client -> Json -> reply bool;
  getNewToken : Client -> reply (Server * string * reply Json);
  findOrCreateDoc : string -> string -> option Client -> Remote -> reply string * Remote;
  hasOpenComments : option Client -> string -> Remote -> reply bool;
  updateHtml : string -> string -> option Client -> bool -> Remote -> reply unit * Remote
}.

(** Effects visible outside the plugin, in the order they are issued. *)
Inductive event : Type :=
| Notice (msg : string)
| ClipboardWrite (text : string)
| Opn (url : string)
| SetTimeoutOpn (url : string) (ms : Z)
| SaveData (s : GoogleDocsSettings)
| CallGetClient (credentialContent : string)
| CallHasValidToken (auth : Client) (t : Json)
| CallGetNewToken (auth : Client)
| CallFindOrCreateDoc (title folder : string) (auth : option Client)
| CallHasOpenComments (auth : option Client) (documentId : string)
| CallUpdateHtml (documentId content : string) (auth : option Client) (wipe : bool).

(** The fields of the plugin object, the data file behind [saveData], and
    the remote store. *)
Record World : Type := mkWorld {
  settings : GoogleDocsSettings;
  authorizationServer : option Server;
  data : option GoogleDocsSettings;
  remote : Remote
}.

(** *** The monad of [async] methods *)

Definition M (A : Type) : Type := World -> completion A * World * list event.

Definition ret {A} (a : A) : M A := fun w => (Returned a, w, []).

Definition bind {A B} (m : M A) (k : A -> M B) : M B :=
  fun w =>
    match m w with
    | (Returned a, w1, t1) =>
        match k a w1 with
        | (c, w2, t2) => (c, w2, t1 ++ t2)
        end
    | (Threw e, w1, t1) => (Threw e, w1, t1)
    | (Blocked, w1, t1) => (Blocked, w1, t1)
    end.

Definition throw {A} (e : JsError) : M A := fun w => (Threw e, w, []).
Definition block {A} : M A := fun w => (Blocked, w, []).
Definition emit (e : event) : M unit := fun w => (Returned tt, w, [e]).
Definition get : M World := fun w => (Returned w, w, []).
Definition put (w : World) : M unit := fun _ => (Returned tt, w, []).

(** [await p] *)
Definition await {A} (p : reply A) : M A :=
  match p with
  | Resolved a => ret a
  | Rejected e => throw e
  | Pending => block
  end.

Definition threw {A} (c : completion A) : bool :=
  match c with
  | Threw _ => true
  | _ => false
  end.

Definition result {A} (m : M A) (w : World) : completion A := fst (fst (m w)).
Definition after {A} (m : M A) (w : World) : World := snd (fst (m w)).
Definition trace {A} (m : M A) (w : World) : list event := snd (m w).

End Plugin.

Arguments Notice {Client Json} msg.
Arguments ClipboardWrite {Client Json} text.
Arguments Opn {Client Json} url.
Arguments SetTimeoutOpn {Client Json} url ms.
Arguments SaveData {Client Json} s.
Arguments CallGetClient {Client Json} credentialContent.
Arguments CallGetNewToken {Client Json} auth.
Arguments CallFindOrCreateDoc {Client Json} title folder auth.
Arguments CallHasOpenComments {Client Json} auth documentId.
Arguments CallUpdateHtml {Client Json} documentId content auth wipe.
Arguments ret {Client Server Json Remote A} a.
Arguments throw {Client Server Json Remote A} e.
Arguments block {Client Server Json Remote A}.
Arguments emit {Client Server Json Remote} e.
Arguments get {Client Server Json Remote}.
Arguments put {Client Server Json Remote} w.
Arguments await {Client Server Json Remote A} p.
Arguments threw {A} c.

Declare Scope js_scope.
Delimit Scope js_scope with js.
Notation "x <- m ;; k" := (bind m (fun x => k))
  (at level 61, m at next level, right associativity) : js_scope.
Notation "m ;; k" := (bind m (fun _ => k))
  (at level 61, right associativity) : js_scope.
Local Open Scope js_scope.

(** ** The plugin's methods *)

Section Methods.

Variables Client Server Json Remote : Type.
Variable E : Env Client Server Json Remote.

Notation World := (World Server Remote).
Notation M := (M Client Server Json Remote).
Notation event := (event Client Json).

(** Field updates of the plugin object and its surroundings. *)
Definition with_settings (w : World) (s : GoogleDocsSettings) : World :=
  {| settings := s; authorizationServer := authorizationServer w;
     data := data w; remote := remote w |}.
Definition with_authorizationServer (w : World) (srv : option Server) : World :=
  {| settings := settings w; authorizationServer := srv;
     data := data w; remote := remote w |}.
Definition with_data (w : World) (d : option GoogleDocsSettings) : World :=
  {| settings := settings w; authorizationServer := authorizationServer w;
     data := d; remote := remote w |}.
Definition with_remote (w : World) (r : Remote) : World :=
  {| settings := settings w; authorizationServer := authorizationServer w;
     data := data w; remote := r |}.

(** *** Calls that leave the plugin *)

(** [getClient({credentialContent: c})]: synchronous, may throw. *)
Definition call_getClient (c : string) : M Client :=
  emit (CallGetClient c) ;;
  match getClient E c with
  | inl e => throw e
  | inr auth => ret auth
  end.

(** [JSON.parse(s)] *)
Definition call_JSON_parse (s : string) : M Json :=
  match JSON_parse E s with
  | Some t => ret t
  | None => throw SyntaxError
  end.

(** [await hasValidToken(auth, t)] *)
Definition call_hasValidToken (auth : Client) (t : Json) : M bool :=
  emit (CallHasValidToken auth t) ;;
  await (hasValidToken E auth t).

(** [await getNewToken(auth)] *)
Definition call_getNewToken (auth : Client) : M (Server * string * reply Json) :=
  emit (CallGetNewToken auth) ;;
  await (getNewToken E auth).

(** [await findOrCreateDoc(title, folder, auth)] *)
Definition call_findOrCreateDoc (title folder : string) (auth : option Client) : M string :=
  emit (CallFindOrCreateDoc title folder auth) ;;
  w <- get ;;
  put (with_remote w (snd (findOrCreateDoc E title folder auth (remote w)))) ;;
  await (fst (findOrCreateDoc E title folder auth (remote w))).

(** [await hasOpenComments(auth, documentId)] *)
Definition call_hasOpenComments (auth : option Client) (documentId : string) : M bool :=
  emit (CallHasOpenComments auth documentId) ;;
  w <- get ;;
  await (hasOpenComments E auth documentId (remote w)).

(** [await updateHtml(documentId, content, auth, { wipe: true })] *)
Definition call_updateHtml (documentId content : string) (auth : option Client) : M unit :=
  emit (CallUpdateHtml documentId content auth true) ;;
  w <- get ;;
  put (with_remote w (snd (updateHtml E documentId content auth true (remote w)))) ;;
  await (fst (updateHtml E documentId content auth true (remote w))).

(** [saveSettings()]: [saveData(this.settings)] is handed the settings
    before the method first suspends. *)
Definition saveSettings : M unit :=
  w <- get ;;
  emit (SaveData (settings w)) ;;
  put (with_data w (Some (settings w))).

(** *** [async getAuth()], main.ts lines 65-95 *)

(** The body of [if (!isValid) { ... }], lines 75-91. *)
Definition authorize (auth : Client) : M unit :=
  r <- call_getNewToken auth ;;
  let '(server, authorizeUrl, tokenPromise) := r in
  emit (Notice MSG_AUTHENTICATE) ;;
  emit (ClipboardWrite authorizeUrl) ;;
  emit (SetTimeoutOpn authorizeUrl 2000) ;;
  w <- get ;;
  put (with_authorizationServer w (Some server)) ;;
  t <- await tokenPromise ;;
  w <- get ;;
  put (with_settings w (set_tokens (settings w) (JSON_stringify E t))) ;;
  saveSettings ;;
  emit (Notice MSG_COMPLETE).

Definition getAuth : M (option Client) :=
  w <- get ;;
  match authorizationServer w with
  | Some _ =>
      emit (Notice MSG_ALREADY) ;;
      ret None
  | None =>
      auth <- call_getClient (credentials (settings w)) ;;
      t <- call_JSON_parse (tokens (settings w)) ;;
      isValid <- call_hasValidToken auth t ;;
      (if negb isValid then authorize auth else ret tt) ;;
      ret (Some auth)
  end.

(** *** [async openGoogleDoc(title, markdownContents)], lines 97-103 *)

Definition openGoogleDoc (title markdownContents : string) : M unit :=
  auth <- getAuth ;;
  emit (Notice MSG_OPENING) ;;
  w <- get ;;
  documentId <- call_findOrCreateDoc title (googleDriveFolderId (settings w)) auth ;;
  emit (Opn (googleDocsUrl documentId)).

(** *** [async createGoogleDoc(title, content)], lines 105-119 *)

Definition createGoogleDoc (title content : string) : M unit :=
  auth <- getAuth ;;
  w <- get ;;
  documentId <- call_findOrCreateDoc title (googleDriveFolderId (settings w)) auth ;;
  conflict <- call_hasOpenComments auth documentId ;;
  if conflict then
    emit (Notice MSG_OPEN_COMMENTS) ;;
    emit (ClipboardWrite (googleDocsUrl documentId))
  else
    call_updateHtml documentId content auth ;;
    emit (ClipboardWrite (googleDocsUrl documentId)) ;;
    emit (Notice MSG_UPDATED).

(** *** The earlier variant: one method doing both jobs

    [async createGoogleDoc(credentials, folderId, title, content)], with
    the authorization steps inline and the conflict check commented out. *)

Definition createGoogleDoc_inline (creds folderId title content : string) : M unit :=
  w <- get ;;
  match authorizationServer w with
  | Some _ => emit (Notice MSG_ALREADY)
  | None =>
      auth <- call_getClient creds ;;
      t <- call_JSON_parse (tokens (settings w)) ;;
      isValid <- call_hasValidToken auth t ;;
      (if negb isValid then authorize auth else ret tt) ;;
      documentId <- call_findOrCreateDoc title folderId (Some auth) ;;
      call_updateHtml documentId content (Some auth) ;;
      emit (ClipboardWrite (googleDocsUrl documentId)) ;;
      emit (Notice MSG_UPDATED)
  end.

(** The plugin once lines 86-90 of [getAuth] have run from [w]: the server
    is recorded, the new token blob stored and handed to [saveData]. *)
Definition authorized (w : World) (srv : Server) (blob : string) : World :=
  {| settings := set_tokens (settings w) blob;
     authorizationServer := Some srv;
     data := Some (set_tokens (settings w) blob);
     remote := remote w |}.

(** *** Reading a trace *)

Definition notices (l : list event) : list string :=
  flat_map (fun e => match e with Notice m => [m] | _ => [] end) l.

Definition clipboard_writes (l : list event) : list string :=
  flat_map (fun e => match e with ClipboardWrite t => [t] | _ => [] end) l.

(** Browser launches, immediate or scheduled through [setTimeout]. *)
Definition launches (l : list event) : list string :=
  flat_map (fun e => match e with
                     | Opn u => [u]
                     | SetTimeoutOpn u _ => [u]
                     | _ => []
                     end) l.

Definition saves (l : list event) : list GoogleDocsSettings :=
  flat_map (fun e => match e with SaveData s => [s] | _ => [] end) l.

(** New-token requests; each one starts a local listener. *)
Definition token_requests (l : list event) : list Client :=
  flat_map (fun e => match e with CallGetNewToken a => [a] | _ => [] end) l.

Definition lookups (l : list event) : list (string * string * option Client) :=
  flat_map (fun e => match e with
                     | CallFindOrCreateDoc t f a => [(t, f, a)]
                     | _ => []
                     end) l.

Definition comment_checks (l : list event) : list (option Client * string) :=
  flat_map (fun e => match e with
                     | CallHasOpenComments a d => [(a, d)]
                     | _ => []
                     end) l.

Definition updates (l : list event) : list (string * string * option Client * bool) :=
  flat_map (fun e => match e with
                     | CallUpdateHtml d c a wipe => [(d, c, a, wipe)]
                     | _ => []
                     end) l.

End Methods.

Arguments with_settings {Server Remote} w s.
Arguments with_authorizationServer {Server Remote} w srv.
Arguments with_data {Server Remote} w d.
Arguments with_remote {Server Remote} w r.
Arguments authorized {Server Remote} w srv blob.
Arguments notices {Client Json} l.
Arguments clipboard_writes {Client Json} l.
Arguments launches {Client Json} l.
Arguments saves {Client Json} l.
Arguments token_requests {Client Json} l.
Arguments lookups {Client Json} l.
Arguments comment_checks {Client Json} l.
Arguments updates {Client Json} l.

(** ** The remote-store contract behind repeated pushes

    What the library is assumed to do for the credential [auth] and the
    document named [title] in [folder], over the store states [Inv] (those
    in which nobody has left an open comment on the document):
    [findOrCreateDoc] always answers the same [documentId]; once it has,
    the document has no open comments and [updateHtml] with [wipe] leaves
    [content] as the whole body.  [body] reads a document's content off the
    store. *)

Section Contract.

Variables Client Server Json Remote : Type.
Variable E : Env Client Server Json Remote.

Record no_conflict_contract (auth : option Client)
    (title folder content documentId : string)
    (body : Remote -> string -> option string) (Inv : Remote -> Prop) : Prop :=
  mkContract {
    resolve_same : forall r, Inv r ->
      fst (findOrCreateDoc E title folder auth r) = Resolved documentId /\
      Inv (snd (findOrCreateDoc E title folder auth r));
    no_comments : forall r, Inv r ->
      hasOpenComments E auth documentId
        (snd (findOrCreateDoc E title folder auth r)) = Resolved false;
    full_replace : forall r, Inv r ->
      let r1 := snd (findOrCreateDoc E title folder auth r) in
      fst (updateHtml E documentId content auth true r1) = Resolved tt /\
      Inv (snd (updateHtml E documentId content auth true r1)) /\
      body (snd (updateHtml E documentId content auth true r1)) documentId = Some content
  }.

End Contract.

(** ** A sample environment

    Concrete stand-ins for the JavaScript runtime and the library, used to
    run the methods on explicit inputs: a reader for a subset of JSON, an
    OAuth client that accepts any token set carrying an access token, and
    an in-memory document store. *)

Module Sample.

Inductive Json : Type :=
| JNull
| JBool (b : bool)
| JNum (n : Z)
| JStr (s : string)
| JArr (items : list Json)
| JObj (members : list (string * Json)).

Definition quote : string := String (ascii_of_nat 34) EmptyString.

Definition is_ws (c : ascii) : bool :=
  let n := nat_of_ascii c in
  Nat.eqb n 32 || Nat.eqb n 9 || Nat.eqb n 10 || Nat.eqb n 13.

Fixpoint skip_ws (s : string) : string :=
  match s with
  | String c s' => if is_ws c then skip_ws s' else s
  | EmptyString => s
  end.

Definition digit (c : ascii) : option Z :=
  let n := nat_of_ascii c in
  if Nat.leb 48 n && Nat.leb n 57 then Some (Z.of_nat (n - 48)) else None.

Fixpoint digits (acc : Z) (s : string) : Z * string :=
  match s with
  | String c s' =>
      match digit c with
      | Some d => digits (10 * acc + d) s'
      | None => (acc, s)
      end
  | EmptyString => (acc, s)
  end.

(** An integer literal: [0], or digits that do not start with [0]. *)
Definition natural (s : string) : option (Z * string) :=
  match s with
  | String c s' =>
      match digit c with
      | Some 0%Z =>
          match s' with
          | String c' _ =>
              match digit c' with Some _ => None | None => Some (0%Z, s') end
          | EmptyString => Some (0%Z, s')
          end
      | Some d => Some (digits d s')
      | None => None
      end
  | EmptyString => None
  end.

(** Fractions and exponents are outside the subset. *)
Definition no_fraction (r : Z * string) : option (Z * string) :=
  match snd r with
  | String c _ =>
      if (c =? ".")%char || (c =? "e")%char || (c =? "E")%char then None else Some r
  | EmptyString => Some r
  end.

(** A string literal up to its closing quote; escapes are outside the
    subset, control characters are not JSON. *)
Fixpoint string_body (s : string) : option (string * string) :=
  match s with
  | String c s' =>
      let n := nat_of_ascii c in
      if Nat.eqb n 34 then Some (EmptyString, s')
      else if Nat.eqb n 92 || Nat.ltb n 32 then None
      else match string_body s' with
           | Some (b, r) => Some (String c b, r)
           | None => None
           end
  | EmptyString => None
  end.

Fixpoint strip (p s : string) : option string :=
  match p, s with
  | EmptyString, _ => Some s
  | String a p', String b s' => if (a =? b)%char then strip p' s' else None
  | String _ _, EmptyString => None
  end.

Definition number (negative : bool) (s : string) : option (Json * string) :=
  match natural s with
  | Some nr =>
      match no_fraction nr with
      | Some (z, r) => Some (JNum (if negative then - z else z), r)
      | None => None
      end
  | None => None
  end.

Definition literal (s : string) : option (Json * string) :=
  match strip "null" s, strip "true" s, strip "false" s with
  | Some r, _, _ => Some (JNull, r)
  | _, Some r, _ => Some (JBool true, r)
  | _, _, Some r => Some (JBool false, r)
  | _, _, _ => number false s
  end.

Fixpoint value (fuel : nat) (s : string) : option (Json * string) :=
  match fuel with
  | O => None
  | S fuel' =>
      match skip_ws s with
      | String c r =>
          if Nat.eqb (nat_of_ascii c) 34 then
            match string_body r with
            | Some (b, r') => Some (JStr b, r')
            | None => None
            end
          else if (c =? "[")%char then
            match skip_ws r with
            | String "]" r' => Some (JArr [], r')
            | _ =>
                match items fuel' r with
                | Some (l, r') => Some (JArr l, r')
                | None => None
                end
            end
          else if (c =? "{")%char then
            match skip_ws r with
            | String "}" r' => Some (JObj [], r')
            | _ =>
                match members fuel' r with
                | Some (l, r') => Some (JObj l, r')
                | None => None
                end
            end
          else if (c =? "-")%char then number true r
          else literal (String c r)
      | EmptyString => None
      end
  end
with items (fuel : nat) (s : string) : option (list Json * string) :=
  match fuel with
  | O => None
  | S fuel' =>
      match value fuel' s with
      | Some (v, r) =>
          match skip_ws r with
          | String "]" r' => Some ([v], r')
          | String "," r' =>
              match items fuel' r' with
              | Some (l, r'') => Some (v :: l, r'')
              | None => None
              end
          | _ => None
          end
      | None => None
      end
  end
with members (fuel : nat) (s : string) : option (list (string * Json) * string) :=
  match fuel with
  | O => None
  | S fuel' =>
      match skip_ws s with
      | String c r =>
          if Nat.eqb (nat_of_ascii c) 34 then
            match string_body r with
            | Some (k, r1) =>
                match skip_ws r1 with
                | String ":" r2 =>
                    match value fuel' r2 with
                    | Some (v, r3) =>
                        match skip_ws r3 with
                        | String "}" r4 => Some ([(k, v)], r4)
                        | String "," r4 =>
                            match members fuel' r4 with
                            | Some (l, r5) => Some ((k, v) :: l, r5)
                            | None => None
                            end
                        | _ => None
                        end
                    | None => None
                    end
                | _ => None
                end
            | None => None
            end
          else None
      | EmptyString => None
      end
  end.

(** [JSON.parse]: one value, then nothing but white space.  The empty
    text holds no value. *)
Definition JSON_parse (s : string) : option Json :=
  match value (2 * String.length s + 1) s with
  | Some (v, r) =>
      match skip_ws r with
      | EmptyString => Some v
      | String _ _ => None
      end
  | None => None
  end.

(** [JSON.stringify], for strings that need no escaping. *)
Fixpoint JSON_stringify (j : Json) : string :=
  match j with
  | JNull => "null"
  | JBool true => "true"
  | JBool false => "false"
  | JNum n => NilZero.string_of_int (Z.to_int n)
  | JStr s => quote ++ s ++ quote
  | JArr l => "[" ++ String.concat "," (List.map JSON_stringify l) ++ "]"
  | JObj l =>
      "{" ++ String.concat ","
               (List.map (fun kv => (quote ++ fst kv ++ quote ++ ":"
                                       ++ JSON_stringify (snd kv))%string) l)
          ++ "}"
  end.

(** *** The OAuth side *)

(** [getClient] reads the credentials as JSON. *)
Definition getClient (credentialContent : string) : JsError + string :=
  match JSON_parse credentialContent with
  | Some _ => inr credentialContent
  | None => inl (Thrown "malformed credentials")
  end.

Definition has_access_token (t : Json) : bool :=
  match t with
  | JObj l =>
      existsb (fun kv => (fst kv =? "access_token")%string &&
                         match snd kv with
                         | JStr s => negb (s =? "")%string
                         | _ => false
                         end) l
  | _ => false
  end.

Definition hasValidToken (auth : string) (t : Json) : reply bool :=
  Resolved (has_access_token t).

Definition PORT : Z := 3000.
Definition AUTHORIZE_URL : string := "https://accounts.google.com/o/oauth2/v2/auth".

(** [grant] is what the token promise does once the user has been sent to
    the browser. *)
Definition getNewToken (grant : reply Json) (auth : string)
  : reply (Z * string * reply Json) :=
  Resolved (PORT, AUTHORIZE_URL, grant).

(** *** The document store: id, body, open comments *)

Definition Drive : Type := list (string * (string * bool)).

Fixpoint lookup (id : string) (d : Drive) : option (string * bool) :=
  match d with
  | [] => None
  | (k, v) :: d' => if (k =? id)%string then Some v else lookup id d'
  end.

Definition body (d : Drive) (id : string) : option string :=
  option_map fst (lookup id d).

Definition doc_id (title folder : string) : string := (folder ++ "/" ++ title)%string.

Definition LOGIN_REQUIRED : JsError := Thrown "Login Required".
Definition NOT_FOUND : JsError := Thrown "File not found".

(** The store serves a call when it carries a client, or when it is
    [public]. *)
Definition admitted (public : bool) (auth : option string) : bool :=
  match auth with
  | Some _ => true
  | None => public
  end.

Definition findOrCreateDoc (public : bool) (title folder : string)
    (auth : option string) (d : Drive) : reply string * Drive :=
  if admitted public auth then
    match lookup (doc_id title folder) d with
    | Some _ => (Resolved (doc_id title folder), d)
    | None => (Resolved (doc_id title folder), d ++ [(doc_id title folder, ("", false))])
    end
  else (Rejected LOGIN_REQUIRED, d).

Definition hasOpenComments (public : bool) (auth : option string) (id : string)
    (d : Drive) : reply bool :=
  if admitted public auth then
    match lookup id d with
    | Some (_, open) => Resolved open
    | None => Rejected NOT_FOUND
    end
  else Rejected LOGIN_REQUIRED.

Definition write (id content : string) (wipe : bool) (entry : string * (string * bool))
  : string * (string * bool) :=
  if (fst entry =? id)%string
  then (fst entry, ((if wipe then content else (fst (snd entry) ++ content)%string), snd (snd entry)))
  else entry.

Definition updateHtml (public : bool) (id content : string) (auth : option string)
    (wipe : bool) (d : Drive) : reply unit * Drive :=
  if admitted public auth then
    match lookup id d with
    | Some _ => (Resolved tt, List.map (write id content wipe) d)
    | None => (Rejected NOT_FOUND, d)
    end
  else (Rejected LOGIN_REQUIRED, d).

Definition library (public : bool) (grant : reply Json) : Env string Z Json Drive :=
  mkEnv JSON_parse JSON_stringify getClient hasValidToken (getNewToken grant)
        (findOrCreateDoc public) (hasOpenComments public) (updateHtml public).

(** The store asks for a client on every call. *)
Definition env (grant : reply Json) : Env string Z Json Drive := library false grant.

(** The store also serves calls that carry no client. *)
Definition public_env (grant : reply Json) : Env string Z Json Drive := library true grant.

(** *** Sample inputs *)

Definition CREDENTIALS : string :=
  JSON_stringify (JObj [("installed", JObj [("client_id", JStr "obsidian")])]).

Definition NEW_TOKENS : Json :=
  JObj [("access_token", JStr "ya29.a0"); ("expiry_date", JNum 4102444800000)].

Definition plugin (tokens : string) (server : option Z) (d : Drive) : World Z Drive :=
  {| settings := {| googleDriveFolderId := "folder";
                    credentials := CREDENTIALS;
                    tokens := tokens |};
     authorizationServer := server;
     data := None;
     remote := d |}.

(** Credentials entered, tokens left at their default. *)
Definition installed : World Z Drive := plugin "" None [].

(** A token blob that parses but carries no access token. *)
Definition signed_out : World Z Drive := plugin "{}" None [].

(** A usable token blob, no authorization under way. *)
Definition signed_in (d : Drive) : World Z Drive :=
  plugin (JSON_stringify NEW_TOKENS) None d.

(** An earlier [getAuth] is suspended at [await tokenPromise]. *)
Definition awaiting : World Z Drive := plugin "{}" (Some PORT) [].

(** A usable token blob with a server recorded. *)
Definition signed_in_guarded (d : Drive) : World Z Drive :=
  plugin (JSON_stringify NEW_TOKENS) (Some PORT) d.

Definition NOTES : string := doc_id "Notes" "folder".

(** The stored document [Notes], with or without an open comment. *)
Definition notes (text : string) (open : bool) : Drive := [(NOTES, (text, open))].

(** The store before [Notes] exists, once it is created, and once
    [content] has been written to it; nobody has commented. *)
Definition notes_states (content : string) (r : Drive) : Prop :=
  r = [] \/ r = notes "" false \/ r = notes content false.

End Sample.

(** ** Frame condition on the settings

    [w'] differs from [w] in its settings at most by a token blob that a
    resolved token promise delivered. *)

Section Frame.

Variables Client Server Json Remote : Type.
Variable E : Env Client Server Json Remote.

Definition only_tokens_written (w w' : World Server Remote) : Prop :=
  googleDriveFolderId (settings w') = googleDriveFolderId (settings w) /\
  credentials (settings w') = credentials (settings w) /\
  (tokens (settings w') <> tokens (settings w) ->
   exists auth old srv url t,
     authorizationServer w = None /\
     getClient E (credentials (settings w)) = inr auth /\
     JSON_parse E (tokens (settings w)) = Some old /\
     hasValidToken E auth old = Resolved false /\
     getNewToken E auth = Resolved (srv, url, Resolved t) /\
     tokens (settings w') = JSON_stringify E t).

End Frame.

(** ** Loading the settings, the settings tab, the commands

    The rest of the plugin: [loadSettings], the [onChange] handlers of
    [GoogleDocSettingTab.display], and the two editor commands that
    [onload] registers. *)

(** A plain object with string-valued properties, as [loadData] hands it
    over; a key occurs once. *)
Definition JsObject : Type := list (string * string).

Fixpoint property (o : JsObject) (key : string) : option string :=
  match o with
  | [] => None
  | (k, v) :: o' => if (k =? key)%string then Some v else property o' key
  end.

(** The object [saveData] is given: the three properties of the settings. *)
Definition as_object (s : GoogleDocsSettings) : JsObject :=
  [("googleDriveFolderId", googleDriveFolderId s);
   ("credentials", credentials s);
   ("tokens", tokens s)].

(** [Object.assign({}, defaults, loaded)], read at the three properties of
    [GoogleDocsSettings]: a property of [loaded] wins over the default, and
    a [null] source contributes nothing.  Other properties of [loaded] are
    carried along by the JavaScript object and never read by the plugin;
    the record does not show them. *)
Definition Object_assign (defaults : GoogleDocsSettings) (loaded : option JsObject)
  : GoogleDocsSettings :=
  match loaded with
  | None => defaults
  | Some o =>
      {| googleDriveFolderId :=
           match property o "googleDriveFolderId" with
           | Some v => v
           | None => googleDriveFolderId defaults
           end;
         credentials :=
           match property o "credentials" with
           | Some v => v
           | None => credentials defaults
           end;
         tokens :=
           match property o "tokens" with
           | Some v => v
           | None => tokens defaults
           end |}
  end.

(** [this.plugin.settings.googleDriveFolderId = v] and
    [this.plugin.settings.credentials = v] *)
Definition set_googleDriveFolderId (s : GoogleDocsSettings) (v : string)
  : GoogleDocsSettings :=
  {| googleDriveFolderId := v; credentials := credentials s; tokens := tokens s |}.

Definition set_credentials (s : GoogleDocsSettings) (v : string) : GoogleDocsSettings :=
  {| googleDriveFolderId := googleDriveFolderId s; credentials := v; tokens := tokens s |}.

Section Lifecycle.

Variables Client Server Json Remote : Type.
Variable E : Env Client Server Json Remote.

Notation World := (World Server Remote).
Notation M := (M Client Server Json Remote).

(** [await this.loadData()]: what [saveData] stored last, [null] when it
    never did. *)
Definition loadData : M (option JsObject) :=
  w <- get ;;
  ret (option_map as_object (data w)).

(** [async loadSettings()], main.ts lines 57-59 *)
Definition loadSettings : M unit :=
  loaded <- loadData ;;
  w <- get ;;
  put (with_settings w (Object_assign DEFAULT_SETTINGS loaded)).

(** *** [GoogleDocSettingTab.display()], lines 130-169 *)

(** The three [onChange] handlers. *)
Definition onChange_googleDriveFolderId (value : string) : M unit :=
  w <- get ;;
  put (with_settings w (set_googleDriveFolderId (settings w) value)) ;;
  @saveSettings Client Server Json Remote.

Definition onChange_credentials (value : string) : M unit :=
  w <- get ;;
  put (with_settings w (set_credentials (settings w) value)) ;;
  @saveSettings Client Server Json Remote.

Definition onChange_tokens (value : string) : M unit :=
  w <- get ;;
  put (with_settings w (set_tokens (settings w) value)) ;;
  @saveSettings Client Server Json Remote.

(** One [new Setting(containerEl)]: its name, description, placeholder,
    the value it is opened with, and its handler. *)
Record Control : Type := mkControl {
  control_name : string;
  control_desc : string;
  control_placeholder : string;
  control_textarea : bool;
  control_value : string;
  control_onChange : string -> M unit
}.

(** What [display] puts into the emptied container, top to bottom. *)
Definition display (w : World) : list Control :=
  [ {| control_name := "Google Drive Folder ID";
       control_desc := "The ID of the Google Drive folder to push to.";
       control_placeholder := "Enter your secret";
       control_textarea := false;
       control_value := googleDriveFolderId (settings w);
       control_onChange := onChange_googleDriveFolderId |};
    {| control_name := "Google Application Credentials";
       control_desc := "The credentials JSON for your Google Application.";
       control_placeholder := "Enter the JSON";
       control_textarea := true;
       control_value := credentials (settings w);
       control_onChange := onChange_credentials |};
    {| control_name := "Google Application Tokens";
       control_desc := "The token JSON for your Google Application.";
       control_placeholder := "Enter the JSON";
       control_textarea := true;
       control_value := tokens (settings w);
       control_onChange := onChange_tokens |} ].

(** *** [async onload()], lines 25-53 *)

(** A call of an [async] method whose promise is dropped: the caller goes
    on whether the method returns, throws or stays suspended. *)
Definition detach {A} (m : M A) : M unit :=
  fun w => (Returned tt, after m w, trace m w).

(** An editor command: [editorCallback] receives [view.file.basename] and
    [editor.getValue()]. *)
Record Command : Type := mkCommand {
  command_id : string;
  command_name : string;
  editorCallback : string -> string -> M unit
}.

Definition PUSH_COMMAND : Command :=
  {| command_id := "push-to-google-docs";
     command_name := "Push to Google Docs";
     editorCallback := fun title markdownContents =>
       detach (createGoogleDoc E title markdownContents) |}.

Definition OPEN_COMMAND : Command :=
  {| command_id := "open-in-google-docs";
     command_name := "Open in Google Docs";
     editorCallback := fun title markdownContents =>
       detach (openGoogleDoc E title markdownContents) |}.

(** [onload] loads the settings and registers the commands (and the
    settings tab, which is [display]). *)
Definition onload : M (list Command) :=
  loadSettings ;;
  ret [PUSH_COMMAND; OPEN_COMMAND].

(** The one command of the earlier variant: it reads the credentials and
    the folder off the settings when it is invoked. *)
Definition PUSH_COMMAND_inline : Command :=
  {| command_id := "push-to-google-docs";
     command_name := "Push to Google Docs";
     editorCallback := fun title markdownContents =>
       w <- get ;;
       detach (createGoogleDoc_inline E (credentials (settings w))
                 (googleDriveFolderId (settings w)) title markdownContents) |}.

Definition onload_inline : M (list Command) :=
  loadSettings ;;
  ret [PUSH_COMMAND_inline].

(** The application is started again: a new plugin object, whose
    [authorizationServer] is initialised to [null] (line 23), runs
    [onload]. *)
Definition restart : M (list Command) :=
  w <- get ;;
  put (with_authorizationServer w None) ;;
  onload.

(** *** What a user can do, in any order

    A session runs the actions one after the other.  A command whose
    method stays suspended on a promise is left suspended: the session
    goes on without resuming it. *)

Inductive action : Type :=
| Push (title content : string)
| Open (title content : string)
| EditFolder (value : string)
| EditCredentials (value : string)
| EditTokens (value : string).

Definition perform (a : action) : M unit :=
  match a with
  | Push title content => editorCallback PUSH_COMMAND title content
  | Open title content => editorCallback OPEN_COMMAND title content
  | EditFolder value => onChange_googleDriveFolderId value
  | EditCredentials value => onChange_credentials value
  | EditTokens value => onChange_tokens value
  end.

Fixpoint session (l : list action) : M unit :=
  match l with
  | [] => ret tt
  | a :: l' => perform a ;; session l'
  end.

(** The calls of [hasOpenComments] in a trace. *)
Definition is_comment_check (e : event Client Json) : bool :=
  match e with
  | CallHasOpenComments _ _ => true
  | _ => false
  end.

Definition without_comment_checks (l : list (event Client Json)) : list (event Client Json) :=
  filter (fun e => negb (is_comment_check e)) l.

(** The settings in memory are the ones a restart would load. *)
Definition synced (w : World) : Prop :=
  settings w = Object_assign DEFAULT_SETTINGS (option_map as_object (data w)).

End Lifecycle.

(** The sample environment over a store on which nobody ever comments. *)
Definition sample_quiet_env (grant : reply Sample.Json)
  : Env string Z Sample.Json Sample.Drive :=
  mkEnv Sample.JSON_parse Sample.JSON_stringify Sample.getClient
        Sample.hasValidToken (Sample.getNewToken grant)
        (Sample.findOrCreateDoc false) (fun _ _ _ => Resolved false)
        (Sample.updateHtml false).

Arguments loadData {Client Server Json Remote}.
Arguments loadSettings {Client Server Json Remote}.
Arguments onChange_googleDriveFolderId {Client Server Json Remote} value.
Arguments onChange_credentials {Client Server Json Remote} value.
Arguments onChange_tokens {Client Server Json Remote} value.
Arguments display {Client Server Json Remote} w.
Arguments detach {Client Server Json Remote A} m.
Arguments synced {Server Remote} w.
Arguments is_comment_check {Client Json} e.
Arguments without_comment_checks {Client Json} l.

(** ** Tactics: running a method symbolically *)

Ltac unfold_methods :=
  unfold openGoogleDoc, createGoogleDoc, createGoogleDoc_inline, getAuth,
    authorize, saveSettings, call_getClient, call_JSON_parse,
    call_hasValidToken, call_getNewToken, call_findOrCreateDoc,
    call_hasOpenComments, call_updateHtml.

Ltac unfold_monad :=
  unfold result, after, trace, await, bind, ret, throw, block, emit, get, put.

(** Rewrite with a known answer of the environment, or split on it. *)
Ltac step :=
  match goal with
  | H : ?x = _ |- context [match ?x with _ => _ end] => rewrite H
  | |- context [match ?x with _ => _ end] =>
      lazymatch x with
      | context [match _ with _ => _ end] => fail
      | _ => destruct x eqn:?
      end
  end.

Ltac run := unfold_methods; unfold_monad; simpl; repeat (step; simpl).

(** ** Sequencing *)

Section Sequencing.

Variables Client Server Json Remote : Type.
Variables A B : Type.
Variable m : M Client Server Json Remote A.
Variable k : A -> M Client Server Json Remote B.
Variable w : World Server Remote.

Lemma bind_returned (a : A) (w1 : World Server Remote) (t1 : list (event Client Json)) :
  m w = (Returned a, w1, t1) ->
  bind m k w = (fst (fst (k a w1)), snd (fst (k a w1)), t1 ++ snd (k a w1)).
Proof.
  intros H. unfold bind. rewrite H.
  destruct (k a w1) as [[c w2] t2]. reflexivity.
Qed.

Lemma bind_threw (e : JsError) (w1 : World Server Remote) (t1 : list (event Client Json)) :
  m w = (Threw e, w1, t1) -> bind m k w = (Threw e, w1, t1).
Proof. intros H. unfold bind. rewrite H. reflexivity. Qed.

Lemma bind_blocked (w1 : World Server Remote) (t1 : list (event Client Json)) :
  m w = (Blocked, w1, t1) -> bind m k w = (Blocked, w1, t1).
Proof. intros H. unfold bind. rewrite H. reflexivity. Qed.

Lemma run_eta : m w = (result m w, after m w, trace m w).
Proof. unfold result, after, trace. destruct (m w) as [[c w1] t1]. reflexivity. Qed.

Lemma run_parts (c : completion A) (w' : World Server Remote) (t : list (event Client Json)) :
  m w = (c, w', t) -> result m w = c /\ after m w = w' /\ trace m w = t.
Proof. intros H. unfold result, after, trace. rewrite H. repeat split. Qed.

(** Whatever [m] emitted stays at the front of the trace. *)
Lemma bind_trace : exists rest, trace (bind m k) w = trace m w ++ rest.
Proof.
  unfold trace, bind. destruct (m w) as [[c w1] t1]. destruct c; simpl.
  - destruct (k a w1) as [[c2 w2] t2]. exists t2. reflexivity.
  - exists []. rewrite app_nil_r. reflexivity.
  - exists []. rewrite app_nil_r. reflexivity.
Qed.

End Sequencing.

(** ** [getAuth], path by path *)

Section GetAuth.

Variables Client Server Json Remote : Type.
Variable E : Env Client Server Json Remote.
Variable w : World Server Remote.

(** Lines 66-69: a server is recorded. *)
Lemma getAuth_guarded (srv : Server) :
  authorizationServer w = Some srv ->
  getAuth E w = (Returned None, w, [Notice MSG_ALREADY]).
Proof. intros H. run. reflexivity. Qed.

(** Line 71 throws. *)
Lemma getAuth_bad_credentials (e : JsError) :
  authorizationServer w = None ->
  getClient E (credentials (settings w)) = inl e ->
  getAuth E w = (Threw e, w, [CallGetClient (credentials (settings w))]).
Proof. intros H1 H2. run. reflexivity. Qed.

(** Line 72, [JSON.parse] throws. *)
Lemma getAuth_unparseable (auth : Client) :
  authorizationServer w = None ->
  getClient E (credentials (settings w)) = inr auth ->
  JSON_parse E (tokens (settings w)) = None ->
  getAuth E w = (Threw SyntaxError, w, [CallGetClient (credentials (settings w))]).
Proof. intros H1 H2 H3. run. reflexivity. Qed.

(** Lines 72-74 and 94: the cached token is valid. *)
Lemma getAuth_cached (auth : Client) (t : Json) :
  authorizationServer w = None ->
  getClient E (credentials (settings w)) = inr auth ->
  JSON_parse E (tokens (settings w)) = Some t ->
  hasValidToken E auth t = Resolved true ->
  getAuth E w =
    (Returned (Some auth), w,
     [CallGetClient (credentials (settings w)); CallHasValidToken auth t]).
Proof. intros H1 H2 H3 H4. run. reflexivity. Qed.

(** Lines 74-94 with a token promise that resolves. *)
Lemma getAuth_round_trip (auth : Client) (t t' : Json) (srv : Server) (url : string) :
  authorizationServer w = None ->
  getClient E (credentials (settings w)) = inr auth ->
  JSON_parse E (tokens (settings w)) = Some t ->
  hasValidToken E auth t = Resolved false ->
  getNewToken E auth = Resolved (srv, url, Resolved t') ->
  getAuth E w =
    (Returned (Some auth), authorized w srv (JSON_stringify E t'),
     [CallGetClient (credentials (settings w)); CallHasValidToken auth t;
      CallGetNewToken auth; Notice MSG_AUTHENTICATE; ClipboardWrite url;
      SetTimeoutOpn url 2000;
      SaveData (set_tokens (settings w) (JSON_stringify E t'));
      Notice MSG_COMPLETE]).
Proof. intros H1 H2 H3 H4 H5. run. reflexivity. Qed.

(** Lines 74-88 with a token promise that is not settled: the call is
    suspended at [await tokenPromise], the server already recorded. *)
Lemma getAuth_suspended (auth : Client) (t : Json) (srv : Server) (url : string) :
  authorizationServer w = None ->
  getClient E (credentials (settings w)) = inr auth ->
  JSON_parse E (tokens (settings w)) = Some t ->
  hasValidToken E auth t = Resolved false ->
  getNewToken E auth = Resolved (srv, url, Pending) ->
  getAuth E w =
    (Blocked, with_authorizationServer w (Some srv),
     [CallGetClient (credentials (settings w)); CallHasValidToken auth t;
      CallGetNewToken auth; Notice MSG_AUTHENTICATE; ClipboardWrite url;
      SetTimeoutOpn url 2000]).
Proof. intros H1 H2 H3 H4 H5. run. reflexivity. Qed.

(** The same, with a token promise that rejects: the server stays recorded. *)
Lemma getAuth_denied (auth : Client) (t : Json) (srv : Server) (url : string) (e : JsError) :
  authorizationServer w = None ->
  getClient E (credentials (settings w)) = inr auth ->
  JSON_parse E (tokens (settings w)) = Some t ->
  hasValidToken E auth t = Resolved false ->
  getNewToken E auth = Resolved (srv, url, Rejected e) ->
  result (getAuth E) w = Threw e /\
  authorizationServer (after (getAuth E) w) = Some srv.
Proof. intros H1 H2 H3 H4 H5. run. split; reflexivity. Qed.

(** [getAuth] never touches the remote store. *)
Lemma getAuth_remote : remote (after (getAuth E) w) = remote w.
Proof. run; reflexivity. Qed.

Lemma getAuth_no_document_calls :
  lookups (trace (getAuth E) w) = [] /\
  comment_checks (trace (getAuth E) w) = [] /\
  updates (trace (getAuth E) w) = [].
Proof. run; repeat split; reflexivity. Qed.

(** At most one new-token request, hence at most one listener, per call. *)
Lemma getAuth_one_request : length (token_requests (trace (getAuth E) w)) <= 1.
Proof. run; lia. Qed.

Lemma getAuth_settings : only_tokens_written E w (after (getAuth E) w).
Proof.
  unfold only_tokens_written.
  destruct (authorizationServer w) as [srv|] eqn:Hg.
  - unfold after. rewrite (getAuth_guarded Hg). simpl.
    repeat split; try reflexivity. intros H. contradiction H. reflexivity.
  - run; repeat split; try reflexivity;
      try (intros H; contradiction H; reflexivity).
    intros _.
    match goal with
    | H1 : getClient E _ = inr ?c, H2 : getNewToken E ?c = Resolved (?s, ?u, Resolved ?t),
      H3 : JSON_parse E _ = Some ?o |- _ =>
        exists c, o, s, u, t
    end.
    repeat split; try assumption; try reflexivity.
    match goal with
    | H : negb ?b = true |- _ => destruct b; [discriminate H | assumption]
    end.
Qed.

End GetAuth.

(** ** [createGoogleDoc] and [openGoogleDoc] after [getAuth] has returned *)

Section Documents.

Variables Client Server Json Remote : Type.
Variable E : Env Client Server Json Remote.
Variables title content : string.
Variable w : World Server Remote.

(** What [getAuth] handed over. *)
Variable a : option Client.
Variable w1 : World Server Remote.
Variable t1 : list (event Client Json).
Hypothesis Hauth : getAuth E w = (Returned a, w1, t1).

Let folder : string := googleDriveFolderId (settings w1).
Let found : reply string * Remote := findOrCreateDoc E title folder a (remote w1).

(** Lines 109-113. *)
Lemma createGoogleDoc_conflict (d : string) :
  fst found = Resolved d ->
  hasOpenComments E a d (snd found) = Resolved true ->
  createGoogleDoc E title content w =
    (Returned tt, with_remote w1 (snd found),
     t1 ++ [CallFindOrCreateDoc title folder a; CallHasOpenComments a d;
            Notice MSG_OPEN_COMMENTS; ClipboardWrite (googleDocsUrl d)]).
Proof.
  intros Hd Hc. subst found folder.
  unfold createGoogleDoc. rewrite bind_returned with (1 := Hauth).
  run. reflexivity.
Qed.

(** Lines 115-118. *)
Lemma createGoogleDoc_written (d : string) :
  fst found = Resolved d ->
  hasOpenComments E a d (snd found) = Resolved false ->
  fst (updateHtml E d content a true (snd found)) = Resolved tt ->
  createGoogleDoc E title content w =
    (Returned tt,
     with_remote w1 (snd (updateHtml E d content a true (snd found))),
     t1 ++ [CallFindOrCreateDoc title folder a; CallHasOpenComments a d;
            CallUpdateHtml d content a true;
            ClipboardWrite (googleDocsUrl d); Notice MSG_UPDATED]).
Proof.
  intros Hd Hc Hu. subst found folder.
  unfold createGoogleDoc. rewrite bind_returned with (1 := Hauth).
  run. reflexivity.
Qed.

(** Lines 99-102. *)
Lemma openGoogleDoc_launched (d : string) :
  fst found = Resolved d ->
  openGoogleDoc E title content w =
    (Returned tt, with_remote w1 (snd found),
     t1 ++ [Notice MSG_OPENING; CallFindOrCreateDoc title folder a;
            Opn (googleDocsUrl d)]).
Proof.
  intros Hd. subst found folder.
  unfold openGoogleDoc. rewrite bind_returned with (1 := Hauth).
  run. reflexivity.
Qed.

End Documents.

(** ** What the document methods leave alone *)

Section DocumentFrame.

Variables Client Server Json Remote : Type.
Variable E : Env Client Server Json Remote.
Variables title content : string.
Variable w : World Server Remote.

Lemma createGoogleDoc_settings :
  settings (after (createGoogleDoc E title content) w) = settings (after (getAuth E) w).
Proof. run; reflexivity. Qed.

Lemma openGoogleDoc_settings :
  settings (after (openGoogleDoc E title content) w) = settings (after (getAuth E) w).
Proof. run; reflexivity. Qed.

Lemma openGoogleDoc_no_write :
  updates (trace (openGoogleDoc E title content) w) = [] /\
  comment_checks (trace (openGoogleDoc E title content) w) = [].
Proof. run; split; reflexivity. Qed.

End DocumentFrame.

(** ** The single-flight guard *)

(** C1, as amended.  Whenever a server is recorded in
    [authorizationServer], [getAuth] posts the notice "Already
    authenticating, complete authorization." and returns [undefined]
    without raising an error; it requests no token (so starts no
    listener), launches no browser, does not wait for the flow in flight,
    and leaves the plugin as it found it. *)
Theorem getAuth_while_pending :
  forall (Client Server Json Remote : Type) (E : Env Client Server Json Remote)
         (w : World Server Remote) (srv : Server),
    authorizationServer w = Some srv ->
    result (getAuth E) w = Returned None /\
    threw (result (getAuth E) w) = false /\
    notices (trace (getAuth E) w) = [MSG_ALREADY] /\
    launches (trace (getAuth E) w) = [] /\
    token_requests (trace (getAuth E) w) = [] /\
    after (getAuth E) w = w.
Proof.
  intros Client Server Json Remote E w srv Hg.
  unfold result, after, trace. rewrite (getAuth_guarded E w Hg). simpl.
  repeat split; reflexivity.
Qed.

Lemma getAuth_while_pending_witness :
  authorizationServer Sample.awaiting = Some Sample.PORT /\
  result (getAuth (Sample.env Pending)) Sample.awaiting = Returned None /\
  after (getAuth (Sample.env Pending)) Sample.awaiting = Sample.awaiting.
Proof.
  split; [reflexivity |].
  pose proof (@getAuth_while_pending _ _ _ _ (Sample.env Pending) Sample.awaiting
                Sample.PORT eq_refl) as H.
  split; [exact (proj1 H) | exact (proj2 (proj2 (proj2 (proj2 (proj2 H)))))].
Defined.

(** C1 as stated fails: in the state a first call leaves behind while its
    token promise is unsettled, a second [getAuth] completes by returning
    [undefined], not by throwing. *)
Lemma getAuth_pending_does_not_throw :
  after (getAuth (Sample.env Pending)) Sample.signed_out = Sample.awaiting /\
  authorizationServer Sample.awaiting = Some Sample.PORT /\
  result (getAuth (Sample.env Pending)) Sample.awaiting = Returned None /\
  threw (result (getAuth (Sample.env Pending)) Sample.awaiting) = false.
Proof. vm_compute. repeat split; reflexivity. Qed.

(** C2: what the code does on a successful round trip.  The new tokens are
    serialized into [settings.tokens], the settings are handed to
    [saveData], "Authentication complete!" is posted and the client is
    returned; but [authorizationServer] still holds the server, so the next
    [getAuth] answers "Already authenticating" and returns [undefined]. *)
Theorem getAuth_round_trip_keeps_server :
  forall (Client Server Json Remote : Type) (E : Env Client Server Json Remote)
         (w : World Server Remote) (auth : Client) (t t' : Json)
         (srv : Server) (url : string),
    authorizationServer w = None ->
    getClient E (credentials (settings w)) = inr auth ->
    JSON_parse E (tokens (settings w)) = Some t ->
    hasValidToken E auth t = Resolved false ->
    getNewToken E auth = Resolved (srv, url, Resolved t') ->
    let w' := after (getAuth E) w in
    result (getAuth E) w = Returned (Some auth) /\
    tokens (settings w') = JSON_stringify E t' /\
    saves (trace (getAuth E) w) = [settings w'] /\
    data w' = Some (settings w') /\
    notices (trace (getAuth E) w) = [MSG_AUTHENTICATE; MSG_COMPLETE] /\
    authorizationServer w' = Some srv /\
    getAuth E w' = (Returned None, w', [Notice MSG_ALREADY]).
Proof.
  intros Client Server Json Remote E w auth t t' srv url Hg Hc Hp Hv Hn w'.
  subst w'. unfold result, after, trace.
  rewrite (getAuth_round_trip E w Hg Hc Hp Hv Hn). simpl.
  repeat split; reflexivity.
Qed.

Lemma getAuth_round_trip_keeps_server_witness :
  let E := Sample.env (Resolved Sample.NEW_TOKENS) in
  let w' := after (getAuth E) Sample.signed_out in
  authorizationServer Sample.signed_out = None /\
  result (getAuth E) Sample.signed_out = Returned (Some Sample.CREDENTIALS) /\
  authorizationServer w' = Some Sample.PORT /\
  getAuth E w' = (Returned None, w', [Notice MSG_ALREADY]).
Proof.
  intros E w'.
  pose proof (@getAuth_round_trip_keeps_server _ _ _ _ E Sample.signed_out
                Sample.CREDENTIALS (Sample.JObj []) Sample.NEW_TOKENS
                Sample.PORT Sample.AUTHORIZE_URL
                eq_refl eq_refl eq_refl eq_refl eq_refl) as H.
  split; [reflexivity |].
  split; [exact (proj1 H) |].
  split; [exact (proj1 (proj2 (proj2 (proj2 (proj2 (proj2 H)))))) |].
  exact (proj2 (proj2 (proj2 (proj2 (proj2 (proj2 H)))))).
Defined.

(** ** The cached token *)

(** C4, as amended.  With no server recorded in [authorizationServer] and
    a token blob that parses and passes [hasValidToken], [getAuth] returns
    the client at once: it calls [getClient] and [hasValidToken] and nothing
    else, launches no browser, writes nothing to the clipboard, saves
    nothing, posts no notice, and leaves the plugin unchanged. *)
Theorem getAuth_cached_no_effects :
  forall (Client Server Json Remote : Type) (E : Env Client Server Json Remote)
         (w : World Server Remote) (auth : Client) (t : Json),
    authorizationServer w = None ->
    getClient E (credentials (settings w)) = inr auth ->
    JSON_parse E (tokens (settings w)) = Some t ->
    hasValidToken E auth t = Resolved true ->
    result (getAuth E) w = Returned (Some auth) /\
    after (getAuth E) w = w /\
    trace (getAuth E) w =
      [CallGetClient (credentials (settings w)); CallHasValidToken auth t] /\
    launches (trace (getAuth E) w) = [] /\
    clipboard_writes (trace (getAuth E) w) = [] /\
    saves (trace (getAuth E) w) = [] /\
    token_requests (trace (getAuth E) w) = [] /\
    notices (trace (getAuth E) w) = [].
Proof.
  intros Client Server Json Remote E w auth t Hg Hc Hp Hv.
  unfold result, after, trace. rewrite (getAuth_cached E w Hg Hc Hp Hv). simpl.
  repeat split; reflexivity.
Qed.

Lemma getAuth_cached_no_effects_witness :
  let E := Sample.env Pending in
  let w := Sample.signed_in [] in
  authorizationServer w = None /\
  hasValidToken E Sample.CREDENTIALS Sample.NEW_TOKENS = Resolved true /\
  result (getAuth E) w = Returned (Some Sample.CREDENTIALS) /\
  after (getAuth E) w = w.
Proof.
  intros E w.
  pose proof (@getAuth_cached_no_effects _ _ _ _ E w Sample.CREDENTIALS
                Sample.NEW_TOKENS eq_refl eq_refl eq_refl eq_refl) as H.
  split; [reflexivity |].
  split; [reflexivity |].
  split; [exact (proj1 H) | exact (proj1 (proj2 H))].
Defined.

(** C4 as stated fails: the token blob parses and passes the validity
    check, yet with a server recorded (an authorization under way, the
    blob entered meanwhile) [getAuth] hands back [undefined] instead of
    the client, and posts a notice. *)
Lemma cached_token_behind_guard :
  let E := Sample.env Pending in
  let w := Sample.signed_in_guarded [] in
  JSON_parse E (tokens (settings w)) = Some Sample.NEW_TOKENS /\
  hasValidToken E Sample.CREDENTIALS Sample.NEW_TOKENS = Resolved true /\
  result (getAuth E) w = Returned None /\
  notices (trace (getAuth E) w) = [MSG_ALREADY].
Proof. vm_compute. repeat split; reflexivity. Qed.

(** ** The default token blob *)

(** C5: what the code does on the default, empty token blob.
    [JSON.parse] of the empty text throws, so [getAuth] rejects with a
    [SyntaxError] at line 72, before [hasValidToken] is consulted; no
    new-token request is issued and nothing is persisted. *)
Theorem getAuth_empty_tokens_throws :
  forall (Client Server Json Remote : Type) (E : Env Client Server Json Remote)
         (w : World Server Remote) (auth : Client),
    JSON_parse E "" = None ->
    authorizationServer w = None ->
    getClient E (credentials (settings w)) = inr auth ->
    tokens (settings w) = "" ->
    result (getAuth E) w = Threw SyntaxError /\
    token_requests (trace (getAuth E) w) = [] /\
    saves (trace (getAuth E) w) = [] /\
    after (getAuth E) w = w.
Proof.
  intros Client Server Json Remote E w auth Hempty Hg Hc Ht.
  rewrite <- Ht in Hempty.
  unfold result, after, trace. rewrite (getAuth_unparseable E w Hg Hc Hempty). simpl.
  repeat split; reflexivity.
Qed.

Lemma getAuth_empty_tokens_throws_witness :
  let E := Sample.env (Resolved Sample.NEW_TOKENS) in
  settings Sample.installed =
    set_tokens (settings Sample.installed) (tokens DEFAULT_SETTINGS) /\
  result (getAuth E) Sample.installed = Threw SyntaxError /\
  token_requests (trace (getAuth E) Sample.installed) = [].
Proof.
  intros E.
  pose proof (@getAuth_empty_tokens_throws _ _ _ _ E Sample.installed
                Sample.CREDENTIALS eq_refl eq_refl eq_refl eq_refl) as H.
  split; [reflexivity |].
  split; [exact (proj1 H) | exact (proj1 (proj2 H))].
Defined.

(** A blob that parses but fails the validity check leads to exactly one
    new-token request, and on success the blob handed to [saveData] is the
    serialized new token set. *)
Lemma getAuth_invalid_token :
  forall (Client Server Json Remote : Type) (E : Env Client Server Json Remote)
         (w : World Server Remote) (auth : Client) (t t' : Json)
         (srv : Server) (url : string),
    authorizationServer w = None ->
    getClient E (credentials (settings w)) = inr auth ->
    JSON_parse E (tokens (settings w)) = Some t ->
    hasValidToken E auth t = Resolved false ->
    getNewToken E auth = Resolved (srv, url, Resolved t') ->
    token_requests (trace (getAuth E) w) = [auth] /\
    option_map tokens (data (after (getAuth E) w)) = Some (JSON_stringify E t').
Proof.
  intros Client Server Json Remote E w auth t t' srv url Hg Hc Hp Hv Hn.
  unfold after, trace. rewrite (getAuth_round_trip E w Hg Hc Hp Hv Hn). simpl.
  split; reflexivity.
Qed.

(** ** Reading the trace of a sequence *)

Section Readers.

Variables Client Json : Type.
Variables l l' : list (event Client Json).

Lemma notices_app : notices (l ++ l') = notices l ++ notices l'.
Proof. apply flat_map_app. Qed.

Lemma clipboard_writes_app :
  clipboard_writes (l ++ l') = clipboard_writes l ++ clipboard_writes l'.
Proof. apply flat_map_app. Qed.

Lemma launches_app : launches (l ++ l') = launches l ++ launches l'.
Proof. apply flat_map_app. Qed.

Lemma lookups_app : lookups (l ++ l') = lookups l ++ lookups l'.
Proof. apply flat_map_app. Qed.

Lemma comment_checks_app :
  comment_checks (l ++ l') = comment_checks l ++ comment_checks l'.
Proof. apply flat_map_app. Qed.

Lemma updates_app : updates (l ++ l') = updates l ++ updates l'.
Proof. apply flat_map_app. Qed.

End Readers.

Create Rewrite HintDb readers.
#[export] Hint Rewrite notices_app clipboard_writes_app launches_app lookups_app
  comment_checks_app updates_app : readers.

(** From the result of [getAuth] to its full run. *)
Lemma getAuth_returned :
  forall (Client Server Json Remote : Type) (E : Env Client Server Json Remote)
         (w : World Server Remote) (a : option Client),
    result (getAuth E) w = Returned a ->
    getAuth E w = (Returned a, after (getAuth E) w, trace (getAuth E) w).
Proof.
  intros Client Server Json Remote E w a H.
  rewrite (run_eta (getAuth E) w) at 1. rewrite H. reflexivity.
Qed.

(** ** The conflict check of [createGoogleDoc] *)

(** C3.  Whenever [hasOpenComments] answers true for the document that
    [findOrCreateDoc] resolved, [createGoogleDoc] never calls [updateHtml]:
    it posts the open-comments notice, copies the document's link to the
    clipboard and returns normally, the store being as [findOrCreateDoc]
    left it. *)
Theorem push_conflict_short_circuit :
  forall (Client Server Json Remote : Type) (E : Env Client Server Json Remote)
         (title content : string) (w : World Server Remote)
         (a : option Client) (d : string),
    result (getAuth E) w = Returned a ->
    let w1 := after (getAuth E) w in
    let found := findOrCreateDoc E title (googleDriveFolderId (settings w1)) a (remote w1) in
    fst found = Resolved d ->
    hasOpenComments E a d (snd found) = Resolved true ->
    let push := createGoogleDoc E title content in
    result push w = Returned tt /\
    threw (result push w) = false /\
    updates (trace push w) = [] /\
    clipboard_writes (trace push w) =
      clipboard_writes (trace (getAuth E) w) ++ [googleDocsUrl d] /\
    notices (trace push w) = notices (trace (getAuth E) w) ++ [MSG_OPEN_COMMENTS] /\
    remote (after push w) = snd found.
Proof.
  intros Client Server Json Remote E title content w a d Ha w1 found Hd Hc push.
  pose proof (@createGoogleDoc_conflict _ _ _ _ E title content w a _ _
                (@getAuth_returned _ _ _ _ E w a Ha) d Hd Hc) as Hrun.
  destruct (run_parts _ _ Hrun) as (Hr & Hw & Ht).
  subst push. rewrite Hr, Hw, Ht.
  autorewrite with readers. simpl.
  destruct (getAuth_no_document_calls E w) as (_ & _ & Hu). rewrite Hu.
  repeat split; reflexivity.
Qed.

Lemma push_conflict_short_circuit_witness :
  let E := Sample.env Pending in
  let w := Sample.signed_in (Sample.notes "v1" true) in
  let push := createGoogleDoc E "Notes" "v2" in
  hasOpenComments E (Some Sample.CREDENTIALS) Sample.NOTES (remote w) = Resolved true /\
  result push w = Returned tt /\
  updates (trace push w) = [] /\
  remote (after push w) = Sample.notes "v1" true.
Proof.
  intros E w push.
  pose proof (@push_conflict_short_circuit _ _ _ _ E "Notes" "v2" w
                (Some Sample.CREDENTIALS) Sample.NOTES eq_refl eq_refl eq_refl) as H.
  split; [reflexivity |].
  split; [exact (proj1 H) |].
  split; [exact (proj1 (proj2 (proj2 H))) |].
  exact (proj2 (proj2 (proj2 (proj2 (proj2 H))))).
Defined.

(** ** [openGoogleDoc] *)

(** C7.  [openGoogleDoc] never calls [updateHtml] and never calls
    [hasOpenComments], whatever the state and the answers of the library;
    when [getAuth] returns and [findOrCreateDoc] resolves a document, it
    looks the document up once and launches the document's link. *)
Theorem open_never_updates :
  forall (Client Server Json Remote : Type) (E : Env Client Server Json Remote)
         (title markdownContents : string) (w : World Server Remote),
    let open := openGoogleDoc E title markdownContents in
    updates (trace open w) = [] /\
    comment_checks (trace open w) = [] /\
    (forall (a : option Client) (d : string),
        result (getAuth E) w = Returned a ->
        let w1 := after (getAuth E) w in
        let folder := googleDriveFolderId (settings w1) in
        let found := findOrCreateDoc E title folder a (remote w1) in
        fst found = Resolved d ->
        result open w = Returned tt /\
        lookups (trace open w) = [(title, folder, a)] /\
        launches (trace open w) = launches (trace (getAuth E) w) ++ [googleDocsUrl d] /\
        remote (after open w) = snd found).
Proof.
  intros Client Server Json Remote E title markdownContents w open.
  destruct (openGoogleDoc_no_write E title markdownContents w) as [Hu Hc].
  split; [exact Hu |]. split; [exact Hc |].
  intros a d Ha w1 folder found Hd.
  pose proof (@openGoogleDoc_launched _ _ _ _ E title markdownContents w a _ _
                (@getAuth_returned _ _ _ _ E w a Ha) d Hd) as Hrun.
  destruct (run_parts _ _ Hrun) as (Hr & Hw & Ht).
  subst open. rewrite Hr, Hw, Ht.
  autorewrite with readers. simpl.
  destruct (getAuth_no_document_calls E w) as (Hl & _ & _). rewrite Hl.
  repeat split; reflexivity.
Qed.

Lemma open_never_updates_witness :
  let E := Sample.env Pending in
  let w := Sample.signed_in (Sample.notes "v1" true) in
  let open := openGoogleDoc E "Notes" "v2" in
  updates (trace open w) = [] /\
  result open w = Returned tt /\
  launches (trace open w) = [googleDocsUrl Sample.NOTES] /\
  remote (after open w) = Sample.notes "v1" true.
Proof.
  intros E w open.
  pose proof (@open_never_updates _ _ _ _ E "Notes" "v2" w) as H.
  destruct H as (Hu & _ & H).
  specialize (H (Some Sample.CREDENTIALS) Sample.NOTES eq_refl eq_refl).
  split; [exact Hu |].
  split; [exact (proj1 H) |].
  split; [exact (proj1 (proj2 (proj2 H))) | exact (proj2 (proj2 (proj2 H)))].
Defined.

(** ** Clipboard and notices of the two document methods *)

Ltac distinct_notices :=
  unfold MSG_ALREADY, MSG_AUTHENTICATE, MSG_COMPLETE, MSG_OPENING,
    MSG_OPEN_COMMENTS, MSG_UPDATED;
  repeat constructor; simpl; intuition discriminate.

Lemma notices_once :
  forall (Client Server Json Remote : Type) (E : Env Client Server Json Remote)
         (title content : string) (w : World Server Remote),
    NoDup (notices (trace (createGoogleDoc E title content) w)) /\
    NoDup (notices (trace (openGoogleDoc E title content) w)).
Proof.
  intros Client Server Json Remote E title content w.
  split; run; distinct_notices.
Qed.

Lemma clipboard_bound :
  forall (Client Server Json Remote : Type) (E : Env Client Server Json Remote)
         (title content : string) (w : World Server Remote),
    length (clipboard_writes (trace (createGoogleDoc E title content) w)) <=
      length (clipboard_writes (trace (getAuth E) w)) + 1 /\
    clipboard_writes (trace (openGoogleDoc E title content) w) =
      clipboard_writes (trace (getAuth E) w).
Proof.
  intros Client Server Json Remote E title content w.
  split; run; simpl; solve [lia | reflexivity].
Qed.

(** C6, as amended.  On every path that returns, [createGoogleDoc] makes
    exactly one clipboard write of its own, and its content is the link of
    the resolved document; on any path it makes at most one.
    [openGoogleDoc] makes no clipboard write of its own on any path: it
    launches the link in the browser instead.  In both methods each
    notification is posted at most once per call.  ([getAuth], which both
    call first, copies the authorization URL when it starts a round
    trip.) *)
Theorem push_open_link_delivery :
  forall (Client Server Json Remote : Type) (E : Env Client Server Json Remote)
         (title content : string) (w : World Server Remote),
    let push := createGoogleDoc E title content in
    let open := openGoogleDoc E title content in
    let auth_trace := trace (getAuth E) w in
    NoDup (notices (trace push w)) /\
    NoDup (notices (trace open w)) /\
    length (clipboard_writes (trace push w)) <= length (clipboard_writes auth_trace) + 1 /\
    clipboard_writes (trace open w) = clipboard_writes auth_trace /\
    (forall (a : option Client) (d : string) (conflict : bool),
        result (getAuth E) w = Returned a ->
        let w1 := after (getAuth E) w in
        let found := findOrCreateDoc E title (googleDriveFolderId (settings w1)) a (remote w1) in
        fst found = Resolved d ->
        hasOpenComments E a d (snd found) = Resolved conflict ->
        (conflict = false ->
         fst (updateHtml E d content a true (snd found)) = Resolved tt) ->
        result push w = Returned tt /\
        clipboard_writes (trace push w) =
          clipboard_writes auth_trace ++ [googleDocsUrl d] /\
        notices (trace push w) =
          notices auth_trace ++ [if conflict then MSG_OPEN_COMMENTS else MSG_UPDATED]) /\
    (forall (a : option Client) (d : string),
        result (getAuth E) w = Returned a ->
        let w1 := after (getAuth E) w in
        let found := findOrCreateDoc E title (googleDriveFolderId (settings w1)) a (remote w1) in
        fst found = Resolved d ->
        result open w = Returned tt /\
        launches (trace open w) = launches auth_trace ++ [googleDocsUrl d] /\
        notices (trace open w) = notices auth_trace ++ [MSG_OPENING]).
Proof.
  intros Client Server Json Remote E title content w push open auth_trace.
  destruct (notices_once E title content w) as [Hn1 Hn2].
  destruct (clipboard_bound E title content w) as [Hc1 Hc2].
  split; [exact Hn1 |]. split; [exact Hn2 |].
  split; [exact Hc1 |]. split; [exact Hc2 |].
  split.
  - intros a d conflict Ha w1 found Hd Hcheck Hupd.
    destruct conflict.
    + pose proof (@createGoogleDoc_conflict _ _ _ _ E title content w a _ _
                    (@getAuth_returned _ _ _ _ E w a Ha) d Hd Hcheck) as Hrun.
      destruct (run_parts _ _ Hrun) as (Hr & _ & Ht).
      subst push auth_trace. rewrite Hr, Ht.
      autorewrite with readers. simpl. repeat split; reflexivity.
    + pose proof (@createGoogleDoc_written _ _ _ _ E title content w a _ _
                    (@getAuth_returned _ _ _ _ E w a Ha) d Hd Hcheck (Hupd eq_refl)) as Hrun.
      destruct (run_parts _ _ Hrun) as (Hr & _ & Ht).
      subst push auth_trace. rewrite Hr, Ht.
      autorewrite with readers. simpl. repeat split; reflexivity.
  - intros a d Ha w1 found Hd.
    pose proof (@openGoogleDoc_launched _ _ _ _ E title content w a _ _
                  (@getAuth_returned _ _ _ _ E w a Ha) d Hd) as Hrun.
    destruct (run_parts _ _ Hrun) as (Hr & _ & Ht).
    subst open auth_trace. rewrite Hr, Ht.
    autorewrite with readers. simpl. repeat split; reflexivity.
Qed.

Lemma push_open_link_delivery_witness :
  let E := Sample.env Pending in
  let w := Sample.signed_in [] in
  result (createGoogleDoc E "Notes" "# Hello") w = Returned tt /\
  clipboard_writes (trace (createGoogleDoc E "Notes" "# Hello") w) =
    [googleDocsUrl Sample.NOTES] /\
  result (openGoogleDoc E "Notes" "# Hello") w = Returned tt /\
  launches (trace (openGoogleDoc E "Notes" "# Hello") w) = [googleDocsUrl Sample.NOTES].
Proof.
  intros E w.
  pose proof (@push_open_link_delivery _ _ _ _ E "Notes" "# Hello" w) as H.
  destruct H as (_ & _ & _ & _ & Hpush & Hopen).
  specialize (Hpush (Some Sample.CREDENTIALS) Sample.NOTES false
                eq_refl eq_refl eq_refl (fun _ => eq_refl)).
  specialize (Hopen (Some Sample.CREDENTIALS) Sample.NOTES eq_refl eq_refl).
  split; [exact (proj1 Hpush) |].
  split; [exact (proj1 (proj2 Hpush)) |].
  split; [exact (proj1 Hopen) | exact (proj1 (proj2 Hopen))].
Defined.

(** C6 as stated fails for [openGoogleDoc]: with a valid cached token it
    resolves the document, launches its link and returns, and nothing has
    been written to the clipboard. *)
Lemma open_copies_nothing :
  let E := Sample.env Pending in
  let w := Sample.signed_in [] in
  result (openGoogleDoc E "Notes" "# Hello") w = Returned tt /\
  launches (trace (openGoogleDoc E "Notes" "# Hello") w) = [googleDocsUrl Sample.NOTES] /\
  clipboard_writes (trace (openGoogleDoc E "Notes" "# Hello") w) = [].
Proof. vm_compute. repeat split; reflexivity. Qed.

(** ** Callers of a guarded [getAuth] *)

(** C9.  When [getAuth] takes the already-authenticating branch it returns
    [undefined] and raises nothing; [openGoogleDoc] and [createGoogleDoc]
    do not stop there: each calls [findOrCreateDoc] with the undefined
    credential, and [createGoogleDoc] goes on to the conflict check and the
    write with it. *)
Theorem guarded_getAuth_callers_continue :
  forall (Client Server Json Remote : Type) (E : Env Client Server Json Remote)
         (title content : string) (w : World Server Remote) (srv : Server),
    authorizationServer w = Some srv ->
    let folder := googleDriveFolderId (settings w) in
    let found := findOrCreateDoc E title folder None (remote w) in
    let push := createGoogleDoc E title content in
    let open := openGoogleDoc E title content in
    result (getAuth E) w = Returned None /\
    threw (result (getAuth E) w) = false /\
    lookups (trace open w) = [(title, folder, None)] /\
    lookups (trace push w) = [(title, folder, None)] /\
    (forall d : string,
        fst found = Resolved d ->
        comment_checks (trace push w) = [(None, d)] /\
        (hasOpenComments E None d (snd found) = Resolved false ->
         updates (trace push w) = [(d, content, None, true)])).
Proof.
  intros Client Server Json Remote E title content w srv Hg folder found push open.
  pose proof (getAuth_guarded E w Hg) as Hauth.
  destruct (run_parts _ _ Hauth) as (Hr & _ & _). rewrite Hr.
  split; [reflexivity |]. split; [reflexivity |].
  subst push open found folder.
  unfold createGoogleDoc, openGoogleDoc.
  unfold trace. rewrite !bind_returned with (1 := Hauth).
  split; [run; reflexivity |].
  split; [run; reflexivity |].
  intros d Hd. split.
  - run; reflexivity.
  - intros Hc. run; reflexivity.
Qed.

Lemma guarded_getAuth_callers_continue_witness :
  let E := Sample.public_env Pending in
  let w := Sample.awaiting in
  authorizationServer w = Some Sample.PORT /\
  result (getAuth E) w = Returned None /\
  lookups (trace (openGoogleDoc E "Notes" "# Hello") w) = [("Notes", "folder", None)] /\
  updates (trace (createGoogleDoc E "Notes" "# Hello") w) =
    [(Sample.NOTES, "# Hello", None, true)].
Proof.
  intros E w.
  pose proof (@guarded_getAuth_callers_continue _ _ _ _ E "Notes" "# Hello" w
                Sample.PORT eq_refl) as H.
  destruct H as (Hr & _ & Ho & _ & Hp).
  specialize (Hp Sample.NOTES eq_refl).
  split; [reflexivity |].
  split; [exact Hr |].
  split; [exact Ho | exact (proj2 Hp eq_refl)].
Defined.

(** ** Settings *)

(** C10.  None of [getAuth], [openGoogleDoc] and [createGoogleDoc] changes
    [googleDriveFolderId] or [credentials]; [tokens] changes only when no
    server was recorded, the old blob failed the validity check, and the
    token promise of a new-token request resolved, and then it holds the
    serialized new token set. *)
Theorem settings_frame :
  forall (Client Server Json Remote : Type) (E : Env Client Server Json Remote)
         (title content : string) (w : World Server Remote),
    only_tokens_written E w (after (getAuth E) w) /\
    only_tokens_written E w (after (openGoogleDoc E title content) w) /\
    only_tokens_written E w (after (createGoogleDoc E title content) w).
Proof.
  intros Client Server Json Remote E title content w.
  pose proof (getAuth_settings E w) as H.
  unfold only_tokens_written in *.
  rewrite createGoogleDoc_settings, openGoogleDoc_settings.
  repeat split; apply H.
Qed.

(** ** Pushing twice *)

Section PushAgain.

Variables Client Server Json Remote : Type.
Variable E : Env Client Server Json Remote.
Variables title content d : string.
Variable body : Remote -> string -> option string.
Variable Inv : Remote -> Prop.

(** One push on the no-conflict path, with the credential [a] that
    [getAuth] hands over. *)
Lemma push_no_conflict (w : World Server Remote) (a : option Client) :
  result (getAuth E) w = Returned a ->
  no_conflict_contract E a title (googleDriveFolderId (settings w)) content d body Inv ->
  Inv (remote w) ->
  let push := createGoogleDoc E title content in
  result push w = Returned tt /\
  clipboard_writes (trace push w) =
    clipboard_writes (trace (getAuth E) w) ++ [googleDocsUrl d] /\
  updates (trace push w) = [(d, content, a, true)] /\
  body (remote (after push w)) d = Some content /\
  Inv (remote (after push w)) /\
  googleDriveFolderId (settings (after push w)) = googleDriveFolderId (settings w).
Proof.
  intros Ha [Hfind Hnone Hwrite] Hinv push.
  pose proof (getAuth_returned E w Ha) as Hauth.
  destruct (getAuth_settings E w) as (Hfolder & _).
  pose proof (getAuth_remote E w) as Hremote.
  rewrite <- Hfolder, <- Hremote in *.
  destruct (Hfind _ Hinv) as [Hd Hinv1].
  pose proof (Hnone _ Hinv) as Hcheck.
  destruct (Hwrite _ Hinv) as (Hu & Hinv2 & Hbody).
  pose proof (@createGoogleDoc_written _ _ _ _ E title content w _ _ _
                Hauth d Hd Hcheck Hu) as Hrun.
  destruct (run_parts _ _ Hrun) as (Hr & Hw & Ht).
  subst push. rewrite Hr, Hw, Ht.
  autorewrite with readers. simpl.
  destruct (getAuth_no_document_calls E w) as (_ & _ & Hno). rewrite Hno.
  repeat split; assumption || reflexivity.
Qed.

End PushAgain.

(** C8.  Let the remote store keep its contract (the title resolves to one
    document id, the document has no open comments, [updateHtml] with
    [wipe] replaces the whole body) for the credentials that [getAuth]
    hands over on the two calls.  Then two pushes of the same title and
    content both return, the link each copies is the link of that one
    document, each issues one [updateHtml] with [wipe], and after each the
    document's content is [content]. *)
Theorem push_twice_same_link :
  forall (Client Server Json Remote : Type) (E : Env Client Server Json Remote)
         (title content d : string)
         (body : Remote -> string -> option string) (Inv : Remote -> Prop)
         (w : World Server Remote) (a1 a2 : option Client),
    let push := createGoogleDoc E title content in
    let folder := googleDriveFolderId (settings w) in
    let w1 := after push w in
    let w2 := after push w1 in
    result (getAuth E) w = Returned a1 ->
    result (getAuth E) w1 = Returned a2 ->
    no_conflict_contract E a1 title folder content d body Inv ->
    no_conflict_contract E a2 title folder content d body Inv ->
    Inv (remote w) ->
    (result push w = Returned tt /\
     clipboard_writes (trace push w) =
       clipboard_writes (trace (getAuth E) w) ++ [googleDocsUrl d] /\
     updates (trace push w) = [(d, content, a1, true)] /\
     body (remote w1) d = Some content) /\
    (result push w1 = Returned tt /\
     clipboard_writes (trace push w1) =
       clipboard_writes (trace (getAuth E) w1) ++ [googleDocsUrl d] /\
     updates (trace push w1) = [(d, content, a2, true)] /\
     body (remote w2) d = Some content).
Proof.
  intros Client Server Json Remote E title content d body Inv w a1 a2
         push folder w1 w2 Ha1 Ha2 Hc1 Hc2 Hinv.
  destruct (@push_no_conflict _ _ _ _ E title content d body Inv w a1 Ha1 Hc1 Hinv)
    as (Hr & Hclip & Hupd & Hbody & Hinv1 & Hfolder).
  fold push in Hr, Hclip, Hupd. fold push w1 in Hbody, Hinv1, Hfolder.
  split; [repeat split; assumption |].
  subst folder. rewrite <- Hfolder in Hc2.
  destruct (@push_no_conflict _ _ _ _ E title content d body Inv w1 a2 Ha2 Hc2 Hinv1)
    as (Hr' & Hclip' & Hupd' & Hbody' & _).
  repeat split; assumption.
Qed.

(** The sample store keeps the contract for [Notes] over the three states
    a first push goes through. *)
Lemma sample_contract :
  no_conflict_contract (Sample.env Pending) (Some Sample.CREDENTIALS)
    "Notes" "folder" "# Hello" Sample.NOTES Sample.body (Sample.notes_states "# Hello").
Proof.
  constructor; intros r [H | [H | H]]; subst r; vm_compute;
    repeat split;
    first [ reflexivity | left; reflexivity | right; left; reflexivity
          | right; right; reflexivity ].
Qed.

Lemma push_twice_same_link_witness :
  let E := Sample.env Pending in
  let push := createGoogleDoc E "Notes" "# Hello" in
  let w := Sample.signed_in [] in
  result (getAuth E) w = Returned (Some Sample.CREDENTIALS) /\
  result (getAuth E) (after push w) = Returned (Some Sample.CREDENTIALS) /\
  clipboard_writes (trace push w) = [googleDocsUrl Sample.NOTES] /\
  clipboard_writes (trace push (after push w)) = [googleDocsUrl Sample.NOTES] /\
  Sample.body (remote (after push w)) Sample.NOTES = Some "# Hello" /\
  Sample.body (remote (after push (after push w))) Sample.NOTES = Some "# Hello".
Proof.
  intros E push w.
  pose proof (@push_twice_same_link _ _ _ _ E "Notes" "# Hello" Sample.NOTES
                Sample.body (Sample.notes_states "# Hello") w
                (Some Sample.CREDENTIALS) (Some Sample.CREDENTIALS)
                eq_refl eq_refl sample_contract sample_contract
                (or_introl eq_refl)) as H.
  destruct H as [(_ & H1 & _ & H2) (_ & H3 & _ & H4)].
  split; [reflexivity |]. split; [reflexivity |].
  split; [exact H1 |]. split; [exact H3 |]. split; [exact H2 | exact H4].
Defined.

(** ** The earlier variant of [createGoogleDoc] *)

Section Inline.

Variables Client Server Json Remote : Type.
Variable E : Env Client Server Json Remote.
Variables creds folderId title content : string.
Variable w : World Server Remote.

(** With a server recorded the whole method stops after the notice: no
    error, and no call to the store. *)
Lemma inline_guarded (srv : Server) :
  authorizationServer w = Some srv ->
  createGoogleDoc_inline E creds folderId title content w =
    (Returned tt, w, [Notice MSG_ALREADY]).
Proof. intros H. run. reflexivity. Qed.

(** It never asks for open comments. *)
Lemma inline_no_conflict_check :
  comment_checks (trace (createGoogleDoc_inline E creds folderId title content) w) = [].
Proof. run; reflexivity. Qed.

(** Here too a server, once recorded, stays recorded. *)
Lemma inline_keeps_server (srv : Server) :
  authorizationServer w = Some srv ->
  authorizationServer (after (createGoogleDoc_inline E creds folderId title content) w)
  = Some srv.
Proof. intros H. unfold after. rewrite (inline_guarded H). exact H. Qed.

Lemma inline_round_trip_keeps_server
    (auth : Client) (t t' : Json) (srv : Server) (url : string) :
  authorizationServer w = None ->
  getClient E creds = inr auth ->
  JSON_parse E (tokens (settings w)) = Some t ->
  hasValidToken E auth t = Resolved false ->
  getNewToken E auth = Resolved (srv, url, Resolved t') ->
  authorizationServer (after (createGoogleDoc_inline E creds folderId title content) w)
  = Some srv.
Proof. intros H1 H2 H3 H4 H5. run; reflexivity. Qed.

End Inline.

(** ** The scenarios of the specification, run on the sample environment *)

(** Valid cached token, open comments on the document. *)
Example scenario_conflict :
  createGoogleDoc (Sample.env Pending) "Notes" "v2"
    (Sample.signed_in (Sample.notes "v1" true)) =
  (Returned tt, Sample.signed_in (Sample.notes "v1" true),
   [CallGetClient Sample.CREDENTIALS;
    CallHasValidToken Sample.CREDENTIALS Sample.NEW_TOKENS;
    CallFindOrCreateDoc "Notes" "folder" (Some Sample.CREDENTIALS);
    CallHasOpenComments (Some Sample.CREDENTIALS) Sample.NOTES;
    Notice MSG_OPEN_COMMENTS;
    ClipboardWrite (googleDocsUrl Sample.NOTES)]).
Proof. vm_compute. reflexivity. Qed.

(** A token blob without access token, the user grants access. *)
Example scenario_first_push :
  trace (createGoogleDoc (Sample.env (Resolved Sample.NEW_TOKENS)) "Notes" "# Hello")
    Sample.signed_out =
  [CallGetClient Sample.CREDENTIALS;
   CallHasValidToken Sample.CREDENTIALS (Sample.JObj []);
   CallGetNewToken Sample.CREDENTIALS;
   Notice MSG_AUTHENTICATE;
   ClipboardWrite Sample.AUTHORIZE_URL;
   SetTimeoutOpn Sample.AUTHORIZE_URL 2000;
   SaveData (settings (Sample.signed_in []));
   Notice MSG_COMPLETE;
   CallFindOrCreateDoc "Notes" "folder" (Some Sample.CREDENTIALS);
   CallHasOpenComments (Some Sample.CREDENTIALS) Sample.NOTES;
   CallUpdateHtml Sample.NOTES "# Hello" (Some Sample.CREDENTIALS) true;
   ClipboardWrite (googleDocsUrl Sample.NOTES);
   Notice MSG_UPDATED].
Proof. vm_compute. reflexivity. Qed.

(** The push after it meets the recorded server and goes to the store
    without a client. *)
Example scenario_second_push :
  let E := Sample.env (Resolved Sample.NEW_TOKENS) in
  let w := after (createGoogleDoc E "Notes" "# Hello") Sample.signed_out in
  createGoogleDoc E "Notes" "# Hello" w =
  (Threw Sample.LOGIN_REQUIRED, w,
   [Notice MSG_ALREADY; CallFindOrCreateDoc "Notes" "folder" None]).
Proof. vm_compute. reflexivity. Qed.

(** The token blob of a fresh install. *)
Example scenario_default_tokens :
  createGoogleDoc (Sample.env (Resolved Sample.NEW_TOKENS)) "Notes" "# Hello"
    Sample.installed =
  (Threw SyntaxError, Sample.installed, [CallGetClient Sample.CREDENTIALS]).
Proof. vm_compute. reflexivity. Qed.

(** ** Loading and saving the settings *)

Ltac unfold_lifecycle :=
  unfold restart, onload, onload_inline, perform, PUSH_COMMAND, OPEN_COMMAND,
    PUSH_COMMAND_inline, editorCallback, detach, loadSettings, loadData,
    onChange_googleDriveFolderId, onChange_credentials, onChange_tokens.

Ltac run_all := unfold_lifecycle; run.

(** Reading back the object that [saveData] was given. *)
Lemma Object_assign_as_object :
  forall defaults s : GoogleDocsSettings,
    Object_assign defaults (Some (as_object s)) = s.
Proof. intros defaults [f c t]. reflexivity. Qed.

(** [loadSettings] brings back the settings as they were last saved,
    whatever has happened to the fields of the plugin object since: only
    the data file counts. *)
Theorem loadSettings_restores_saved :
  forall (Client Server Json Remote : Type) (w w' : World Server Remote),
    data w' = data (after (@saveSettings Client Server Json Remote) w) ->
    result (@loadSettings Client Server Json Remote) w' = Returned tt /\
    settings (after (@loadSettings Client Server Json Remote) w') = settings w /\
    data (after (@loadSettings Client Server Json Remote) w') = Some (settings w).
Proof.
  intros Client Server Json Remote w w' H.
  unfold loadSettings, loadData, saveSettings in *.
  unfold result, after, trace, bind, ret, get, put, emit in *. simpl in *.
  rewrite H. simpl. destruct (settings w) as [f c t].
  repeat split; reflexivity.
Qed.

Lemma loadSettings_restores_saved_witness :
  let w := Sample.signed_in [] in
  let w' := with_settings (after (@saveSettings string Z Sample.Json Sample.Drive) w)
              DEFAULT_SETTINGS in
  settings (after (@loadSettings string Z Sample.Json Sample.Drive) w') = settings w.
Proof.
  intros w w'.
  exact (proj1 (proj2 (@loadSettings_restores_saved string Z Sample.Json Sample.Drive
                         w w' eq_refl))).
Defined.

(** With no data file, or one in which properties are missing,
    [loadSettings] fills in the defaults: every property that the stored
    object lacks comes out as the empty string, and the others as stored. *)
Lemma Object_assign_fills_defaults :
  forall (o : JsObject),
    Object_assign DEFAULT_SETTINGS None = DEFAULT_SETTINGS /\
    Object_assign DEFAULT_SETTINGS (Some []) = DEFAULT_SETTINGS /\
    as_object (Object_assign DEFAULT_SETTINGS (Some o)) =
      List.map (fun kv => (fst kv, match property o (fst kv) with
                                   | Some v => v
                                   | None => ""
                                   end))
               (as_object DEFAULT_SETTINGS).
Proof. intros o. repeat split; reflexivity. Qed.

(** ** Sessions *)

Section Sessions.

Variables Client Server Json Remote : Type.
Variable E : Env Client Server Json Remote.

Lemma perform_returns (a : action) (w : World Server Remote) :
  result (perform E a) w = Returned tt.
Proof. destruct a; reflexivity. Qed.

Lemma session_cons (a : action) (l : list action) (w : World Server Remote) :
  session E (a :: l) w =
    (result (session E l) (after (perform E a) w),
     after (session E l) (after (perform E a) w),
     trace (perform E a) w ++ trace (session E l) (after (perform E a) w)).
Proof.
  simpl. rewrite bind_returned with (1 := eq_trans (run_eta (perform E a) w)
    (f_equal (fun c => (c, after (perform E a) w, trace (perform E a) w))
             (perform_returns a w))).
  reflexivity.
Qed.

Lemma session_returns (l : list action) (w : World Server Remote) :
  result (session E l) w = Returned tt.
Proof.
  revert w. induction l as [|a l IH]; intros w; [reflexivity |].
  unfold result. rewrite session_cons. simpl. apply IH.
Qed.

(** Each action leaves the settings in memory equal to the saved ones. *)
Lemma perform_synced (a : action) (w : World Server Remote) :
  synced w -> synced (after (perform E a) w).
Proof.
  intros H. unfold synced in *.
  destruct a; run_all; try exact H;
    simpl; try (destruct (settings w)); reflexivity.
Qed.


(** With the default token blob and no server recorded, an action other
    than an edit of the tokens changes neither, and reaches neither the
    store nor the authorization. *)
Lemma perform_without_tokens (a : action) (w : World Server Remote) :
  JSON_parse E "" = None ->
  tokens (settings w) = "" ->
  authorizationServer w = None ->
  (forall v, a <> EditTokens v) ->
  tokens (settings (after (perform E a) w)) = "" /\
  authorizationServer (after (perform E a) w) = None /\
  token_requests (trace (perform E a) w) = [] /\
  lookups (trace (perform E a) w) = [].
Proof.
  intros Hparse Ht Hg Ha. rewrite <- Ht in Hparse.
  destruct a; try (exfalso; eapply Ha; reflexivity);
    run_all; repeat split; simpl; try assumption; reflexivity.
Qed.

End Sessions.

Lemma token_requests_app :
  forall (Client Json : Type) (l l' : list (event Client Json)),
    token_requests (l ++ l') = token_requests l ++ token_requests l'.
Proof. intros. apply flat_map_app. Qed.

Lemma session_parts :
  forall (Client Server Json Remote : Type) (E : Env Client Server Json Remote)
         (a : action) (l : list action) (w : World Server Remote),
    after (session E (a :: l)) w = after (session E l) (after (perform E a) w) /\
    trace (session E (a :: l)) w =
      trace (perform E a) w ++ trace (session E l) (after (perform E a) w).
Proof.
  intros. destruct (run_parts _ _ (session_cons E a l w)) as (_ & H1 & H2).
  split; assumption.
Qed.



(** After every action the data file holds the settings in memory, so a
    restart at any point of a session comes back with the same settings,
    and with no server recorded. *)
Theorem session_survives_restart :
  forall (Client Server Json Remote : Type) (E : Env Client Server Json Remote)
         (l : list action) (w : World Server Remote),
    synced w ->
    let w' := after (session E l) w in
    synced w' /\
    settings (after (restart E) w') = settings w' /\
    authorizationServer (after (restart E) w') = None /\
    remote (after (restart E) w') = remote w'.
Proof.
  intros Client Server Json Remote E l.
  induction l as [|a l IH]; intros w Hs w'.
  - subst w'. simpl. split; [exact Hs |].
    unfold synced in Hs. run_all. repeat split; simpl; try reflexivity.
    symmetry. exact Hs.
  - subst w'. destruct (session_parts E a l w) as [Hw _]. rewrite Hw.
    apply IH. apply perform_synced. exact Hs.
Qed.

(** [onload] leaves the settings in memory equal to the saved ones. *)
Lemma onload_synced :
  forall (Client Server Json Remote : Type) (E : Env Client Server Json Remote)
         (w : World Server Remote),
    synced (after (onload E) w).
Proof. intros. unfold synced. run_all. reflexivity. Qed.

Lemma session_survives_restart_witness :
  let E := Sample.env (Resolved Sample.NEW_TOKENS) in
  let l := [EditFolder "other"; Push "Notes" "# Hello"] in
  let saved := with_data Sample.signed_out (Some (settings Sample.signed_out)) in
  let w' := after (session E l) (after (onload E) saved) in
  tokens (settings w') = Sample.JSON_stringify Sample.NEW_TOKENS /\
  authorizationServer w' = Some Sample.PORT /\
  settings (after (restart E) w') = settings w' /\
  authorizationServer (after (restart E) w') = None.
Proof.
  intros E l saved w'.
  pose proof (@session_survives_restart _ _ _ _ E l (after (onload E) saved)
                (onload_synced E saved)) as H.
  split; [reflexivity |]. split; [reflexivity |].
  split; [exact (proj1 (proj2 H)) | exact (proj1 (proj2 (proj2 H)))].
Defined.

(** With the default, empty token blob and no server recorded, a session
    without an edit of the tokens never gets past [JSON.parse]: however
    many pushes, opens and edits of folder and credentials it holds, no
    token is requested, the store is never called, and the blob stays
    empty. *)
Theorem session_without_tokens_is_stuck :
  forall (Client Server Json Remote : Type) (E : Env Client Server Json Remote)
         (l : list action) (w : World Server Remote),
    JSON_parse E "" = None ->
    tokens (settings w) = "" ->
    authorizationServer w = None ->
    Forall (fun a => forall v, a <> EditTokens v) l ->
    tokens (settings (after (session E l) w)) = "" /\
    authorizationServer (after (session E l) w) = None /\
    token_requests (trace (session E l) w) = [] /\
    lookups (trace (session E l) w) = [].
Proof.
  intros Client Server Json Remote E l.
  induction l as [|a l IH]; intros w Hparse Ht Hg Hl.
  - repeat split; assumption.
  - inversion Hl as [|a' l' Ha Hl']; subst.
    destruct (session_parts E a l w) as [Hw Htr]. rewrite Hw, Htr.
    destruct (@perform_without_tokens _ _ _ _ E a w Hparse Ht Hg Ha) as (Ht1 & Hg1 & Hr1 & Hl1).
    destruct (IH _ Hparse Ht1 Hg1 Hl') as (Ht2 & Hg2 & Hr2 & Hl2).
    rewrite token_requests_app, lookups_app, Hr1, Hr2, Hl1, Hl2.
    repeat split; assumption.
Qed.

Lemma session_without_tokens_is_stuck_witness :
  let E := Sample.env (Resolved Sample.NEW_TOKENS) in
  let l := [EditCredentials Sample.CREDENTIALS; Push "Notes" "# Hello";
            Open "Notes" "# Hello"] in
  let w := after (restart E) Sample.installed in
  tokens (settings w) = "" /\
  lookups (trace (session E l) w) = [] /\
  token_requests (trace (session E l) w) = [].
Proof.
  intros E l w.
  assert (Hl : Forall (fun a => forall v, a <> EditTokens v) l).
  { repeat constructor; intros v H; discriminate H. }
  pose proof (@session_without_tokens_is_stuck _ _ _ _ E l w
                eq_refl eq_refl eq_refl Hl) as H.
  split; [reflexivity |].
  split; [exact (proj2 (proj2 (proj2 H))) | exact (proj1 (proj2 (proj2 H)))].
Defined.

(** ** More on [getAuth] *)

(** A token set obtained in one run of the application is used in the
    next: when the serialized tokens parse back and pass the validity
    check, [getAuth] after a restart returns the client from the stored
    blob, without a second authorization. *)
Theorem tokens_survive_restart :
  forall (Client Server Json Remote : Type) (E : Env Client Server Json Remote)
         (w : World Server Remote) (auth : Client) (t t' : Json)
         (srv : Server) (url : string),
    authorizationServer w = None ->
    getClient E (credentials (settings w)) = inr auth ->
    JSON_parse E (tokens (settings w)) = Some t ->
    hasValidToken E auth t = Resolved false ->
    getNewToken E auth = Resolved (srv, url, Resolved t') ->
    JSON_parse E (JSON_stringify E t') = Some t' ->
    hasValidToken E auth t' = Resolved true ->
    let w2 := after (restart E) (after (getAuth E) w) in
    tokens (settings w2) = JSON_stringify E t' /\
    getAuth E w2 =
      (Returned (Some auth), w2,
       [CallGetClient (credentials (settings w)); CallHasValidToken auth t']).
Proof.
  intros Client Server Json Remote E w auth t t' srv url Hg Hc Hp Hv Hn Hrt Hv' w2.
  assert (Hw2 : w2 = {| settings := set_tokens (settings w) (JSON_stringify E t');
                        authorizationServer := None;
                        data := Some (set_tokens (settings w) (JSON_stringify E t'));
                        remote := remote w |}).
  { destruct (run_parts _ _ (getAuth_round_trip E w Hg Hc Hp Hv Hn)) as (_ & Hw1 & _).
    subst w2. rewrite Hw1. unfold authorized.
    unfold_lifecycle. unfold_monad. simpl.
    destruct (settings w); reflexivity. }
  rewrite Hw2. split; [reflexivity |].
  rewrite (@getAuth_cached _ _ _ _ E _ auth t'); simpl;
    try reflexivity; assumption.
Qed.

Lemma tokens_survive_restart_witness :
  let E := Sample.env (Resolved Sample.NEW_TOKENS) in
  let w2 := after (restart E) (after (getAuth E) Sample.signed_out) in
  JSON_parse E (JSON_stringify E Sample.NEW_TOKENS) = Some Sample.NEW_TOKENS /\
  result (getAuth E) (after (getAuth E) Sample.signed_out) = Returned None /\
  result (getAuth E) w2 = Returned (Some Sample.CREDENTIALS).
Proof.
  intros E w2.
  pose proof (@tokens_survive_restart _ _ _ _ E Sample.signed_out
                Sample.CREDENTIALS (Sample.JObj []) Sample.NEW_TOKENS
                Sample.PORT Sample.AUTHORIZE_URL
                eq_refl eq_refl eq_refl eq_refl eq_refl eq_refl eq_refl) as H.
  split; [reflexivity |]. split; [reflexivity |].
  destruct H as [_ H]. fold w2 in H.
  unfold result. rewrite H. reflexivity.
Defined.

(** When the token promise rejects, [getAuth] rejects with the same
    error after the notice, the clipboard write and the scheduled launch;
    nothing is stored, but the server stays recorded, so the next call
    answers "Already authenticating" instead of starting over. *)
Theorem getAuth_denied_stays_guarded :
  forall (Client Server Json Remote : Type) (E : Env Client Server Json Remote)
         (w : World Server Remote) (auth : Client) (t : Json)
         (srv : Server) (url : string) (e : JsError),
    authorizationServer w = None ->
    getClient E (credentials (settings w)) = inr auth ->
    JSON_parse E (tokens (settings w)) = Some t ->
    hasValidToken E auth t = Resolved false ->
    getNewToken E auth = Resolved (srv, url, Rejected e) ->
    let w' := after (getAuth E) w in
    result (getAuth E) w = Threw e /\
    w' = with_authorizationServer w (Some srv) /\
    saves (trace (getAuth E) w) = [] /\
    notices (trace (getAuth E) w) = [MSG_AUTHENTICATE] /\
    clipboard_writes (trace (getAuth E) w) = [url] /\
    launches (trace (getAuth E) w) = [url] /\
    getAuth E w' = (Returned None, w', [Notice MSG_ALREADY]).
Proof.
  intros Client Server Json Remote E w auth t srv url e Hg Hc Hp Hv Hn w'.
  subst w'. run. repeat split; reflexivity.
Qed.

Lemma getAuth_denied_stays_guarded_witness :
  let E := Sample.env (Rejected (Thrown "access_denied")) in
  authorizationServer Sample.signed_out = None /\
  result (getAuth E) Sample.signed_out = Threw (Thrown "access_denied") /\
  after (getAuth E) Sample.signed_out = Sample.awaiting.
Proof.
  intros E.
  pose proof (@getAuth_denied_stays_guarded _ _ _ _ E Sample.signed_out
                Sample.CREDENTIALS (Sample.JObj []) Sample.PORT Sample.AUTHORIZE_URL
                (Thrown "access_denied")
                eq_refl eq_refl eq_refl eq_refl eq_refl) as H.
  split; [reflexivity |].
  split; [exact (proj1 H) | exact (proj1 (proj2 H))].
Defined.

(** Unless [getAuth] returns a client, it stores nothing: the settings and
    the data file are as before and [saveData] has not been called. *)
Theorem getAuth_stores_only_on_success :
  forall (Client Server Json Remote : Type) (E : Env Client Server Json Remote)
         (w : World Server Remote),
    (forall auth, result (getAuth E) w <> Returned (Some auth)) ->
    settings (after (getAuth E) w) = settings w /\
    data (after (getAuth E) w) = data w /\
    saves (trace (getAuth E) w) = [].
Proof.
  intros Client Server Json Remote E w.
  run; intros H; repeat split; try reflexivity;
    exfalso; eapply H; reflexivity.
Qed.

Lemma getAuth_stores_only_on_success_witness :
  let E := Sample.env Pending in
  result (getAuth E) Sample.signed_out = Blocked /\
  data (after (getAuth E) Sample.signed_out) = None /\
  saves (trace (getAuth E) Sample.signed_out) = [].
Proof.
  intros E.
  assert (Hn : forall auth, result (getAuth E) Sample.signed_out <> Returned (Some auth)).
  { intros auth H. discriminate H. }
  pose proof (@getAuth_stores_only_on_success _ _ _ _ E Sample.signed_out Hn) as H.
  split; [reflexivity |].
  split; [exact (proj1 (proj2 H)) | exact (proj2 (proj2 H))].
Defined.

(** ** Failures of [createGoogleDoc] and [openGoogleDoc] *)

Section DocumentFailures.

Variables Client Server Json Remote : Type.
Variable E : Env Client Server Json Remote.
Variables title content : string.
Variable w : World Server Remote.
Variable a : option Client.
Variable w1 : World Server Remote.
Variable t1 : list (event Client Json).
Hypothesis Hauth : getAuth E w = (Returned a, w1, t1).
Variable e : JsError.

Let folder : string := googleDriveFolderId (settings w1).
Let found : reply string * Remote := findOrCreateDoc E title folder a (remote w1).

Lemma createGoogleDoc_lookup_fails :
  fst found = Rejected e ->
  createGoogleDoc E title content w =
    (Threw e, with_remote w1 (snd found),
     t1 ++ [CallFindOrCreateDoc title folder a]).
Proof.
  intros Hd. subst found folder.
  unfold createGoogleDoc. rewrite bind_returned with (1 := Hauth).
  run. reflexivity.
Qed.

Lemma createGoogleDoc_check_fails (d : string) :
  fst found = Resolved d ->
  hasOpenComments E a d (snd found) = Rejected e ->
  createGoogleDoc E title content w =
    (Threw e, with_remote w1 (snd found),
     t1 ++ [CallFindOrCreateDoc title folder a; CallHasOpenComments a d]).
Proof.
  intros Hd Hc. subst found folder.
  unfold createGoogleDoc. rewrite bind_returned with (1 := Hauth).
  run. reflexivity.
Qed.

Lemma createGoogleDoc_write_fails (d : string) :
  fst found = Resolved d ->
  hasOpenComments E a d (snd found) = Resolved false ->
  fst (updateHtml E d content a true (snd found)) = Rejected e ->
  createGoogleDoc E title content w =
    (Threw e, with_remote w1 (snd (updateHtml E d content a true (snd found))),
     t1 ++ [CallFindOrCreateDoc title folder a; CallHasOpenComments a d;
            CallUpdateHtml d content a true]).
Proof.
  intros Hd Hc Hu. subst found folder.
  unfold createGoogleDoc. rewrite bind_returned with (1 := Hauth).
  run. reflexivity.
Qed.

Lemma openGoogleDoc_lookup_fails :
  fst found = Rejected e ->
  openGoogleDoc E title content w =
    (Threw e, with_remote w1 (snd found),
     t1 ++ [Notice MSG_OPENING; CallFindOrCreateDoc title folder a]).
Proof.
  intros Hd. subst found folder.
  unfold openGoogleDoc. rewrite bind_returned with (1 := Hauth).
  run. reflexivity.
Qed.

End DocumentFailures.

Ltac read_run Hrun :=
  let Hr := fresh "Hr" in
  let Hw := fresh "Hw" in
  let Ht := fresh "Ht" in
  destruct (run_parts _ _ Hrun) as (Hr & Hw & Ht);
  rewrite ?Hr, ?Hw, ?Ht; autorewrite with readers; simpl.

(** An error of [getAuth] or of a library call leaves [createGoogleDoc]
    unchanged, and ends the call there: after a failed [findOrCreateDoc]
    there is no conflict check, after a failed conflict check no write, and
    a failed write is the last call of the method. *)
Theorem push_propagates_errors :
  forall (Client Server Json Remote : Type) (E : Env Client Server Json Remote)
         (title content : string) (w : World Server Remote) (e : JsError),
    let push := createGoogleDoc E title content in
    let w1 := after (getAuth E) w in
    let found := fun a =>
      findOrCreateDoc E title (googleDriveFolderId (settings w1)) a (remote w1) in
    (result (getAuth E) w = Threw e ->
     result push w = Threw e /\ trace push w = trace (getAuth E) w) /\
    (forall a, result (getAuth E) w = Returned a ->
       fst (found a) = Rejected e ->
       result push w = Threw e /\
       comment_checks (trace push w) = [] /\
       updates (trace push w) = []) /\
    (forall a d, result (getAuth E) w = Returned a ->
       fst (found a) = Resolved d ->
       hasOpenComments E a d (snd (found a)) = Rejected e ->
       result push w = Threw e /\
       updates (trace push w) = [] /\
       remote (after push w) = snd (found a)) /\
    (forall a d, result (getAuth E) w = Returned a ->
       fst (found a) = Resolved d ->
       hasOpenComments E a d (snd (found a)) = Resolved false ->
       fst (updateHtml E d content a true (snd (found a))) = Rejected e ->
       result push w = Threw e /\
       updates (trace push w) = [(d, content, a, true)] /\
       remote (after push w) = snd (updateHtml E d content a true (snd (found a)))).
Proof.
  intros Client Server Json Remote E title content w e push w1 found.
  destruct (getAuth_no_document_calls E w) as (_ & Hc & Hu).
  subst push w1 found. split; [| split; [| split]].
  - intros H. unfold result, trace in *. unfold createGoogleDoc, bind.
    destruct (getAuth E w) as [[c w'] t']. simpl in *. subst c. split; reflexivity.
  - intros a Ha Hd.
    read_run (@createGoogleDoc_lookup_fails _ _ _ _ E title content w a _ _
                (@getAuth_returned _ _ _ _ E w a Ha) e Hd).
    rewrite Hc, Hu. repeat split; reflexivity.
  - intros a d Ha Hd Hcheck.
    read_run (@createGoogleDoc_check_fails _ _ _ _ E title content w a _ _
                (@getAuth_returned _ _ _ _ E w a Ha) e d Hd Hcheck).
    rewrite Hu. repeat split; reflexivity.
  - intros a d Ha Hd Hcheck Hupd.
    read_run (@createGoogleDoc_write_fails _ _ _ _ E title content w a _ _
                (@getAuth_returned _ _ _ _ E w a Ha) e d Hd Hcheck Hupd).
    rewrite Hu. repeat split; reflexivity.
Qed.

Lemma push_propagates_errors_witness :
  let E := Sample.env Pending in
  let push := createGoogleDoc E "Notes" "# Hello" in
  result (getAuth E) Sample.awaiting = Returned None /\
  result push Sample.awaiting = Threw Sample.LOGIN_REQUIRED /\
  comment_checks (trace push Sample.awaiting) = [] /\
  updates (trace push Sample.awaiting) = [].
Proof.
  intros E push.
  pose proof (@push_propagates_errors _ _ _ _ E "Notes" "# Hello" Sample.awaiting
                Sample.LOGIN_REQUIRED) as H.
  destruct H as (_ & H & _).
  specialize (H None eq_refl eq_refl).
  split; [reflexivity | exact H].
Defined.

(** A call of [createGoogleDoc] that does not return tells the user
    nothing: beyond what [getAuth] posted and copied there is no notice and
    no clipboard write.  A call of [openGoogleDoc] that does not return has
    launched no document. *)
Theorem failed_calls_are_silent :
  forall (Client Server Json Remote : Type) (E : Env Client Server Json Remote)
         (title content : string) (w : World Server Remote),
    (result (createGoogleDoc E title content) w <> Returned tt ->
     notices (trace (createGoogleDoc E title content) w) =
       notices (trace (getAuth E) w) /\
     clipboard_writes (trace (createGoogleDoc E title content) w) =
       clipboard_writes (trace (getAuth E) w)) /\
    (result (openGoogleDoc E title content) w <> Returned tt ->
     launches (trace (openGoogleDoc E title content) w) =
       launches (trace (getAuth E) w)).
Proof.
  intros Client Server Json Remote E title content w.
  split; run; intros H; repeat split; try reflexivity;
    exfalso; apply H; reflexivity.
Qed.

Lemma failed_calls_are_silent_witness :
  let E := Sample.env Pending in
  let push := createGoogleDoc E "Notes" "# Hello" in
  result push Sample.awaiting = Threw Sample.LOGIN_REQUIRED /\
  notices (trace push Sample.awaiting) = [MSG_ALREADY] /\
  clipboard_writes (trace push Sample.awaiting) = [].
Proof.
  intros E push.
  assert (Hn : result push Sample.awaiting <> Returned tt).
  { intros H. discriminate H. }
  pose proof (proj1 (@failed_calls_are_silent _ _ _ _ E "Notes" "# Hello"
                       Sample.awaiting) Hn) as H.
  split; [reflexivity | exact H].
Defined.

(** "Document updated." is posted only after [updateHtml] has resolved:
    whenever the notice is in the trace, the call has returned after one
    write of [content], with [wipe], to the document that
    [findOrCreateDoc] resolved. *)
Theorem updated_notice_is_truthful :
  forall (Client Server Json Remote : Type) (E : Env Client Server Json Remote)
         (title content : string) (w : World Server Remote),
    let push := createGoogleDoc E title content in
    let w1 := after (getAuth E) w in
    let found := fun a =>
      findOrCreateDoc E title (googleDriveFolderId (settings w1)) a (remote w1) in
    In MSG_UPDATED (notices (trace push w)) ->
    result push w = Returned tt /\
    exists a d,
      result (getAuth E) w = Returned a /\
      updates (trace push w) = [(d, content, a, true)] /\
      fst (found a) = Resolved d /\
      fst (updateHtml E d content a true (snd (found a))) = Resolved tt /\
      clipboard_writes (trace push w) =
        clipboard_writes (trace (getAuth E) w) ++ [googleDocsUrl d].
Proof.
  intros Client Server Json Remote E title content w push w1 found.
  subst push w1 found.
  run; unfold MSG_UPDATED, MSG_ALREADY, MSG_AUTHENTICATE, MSG_COMPLETE,
         MSG_OPEN_COMMENTS;
    simpl; intros H;
    repeat match goal with
           | H : _ \/ _ |- _ => destruct H
           | H : False |- _ => destruct H
           | H : _ = _ :> string |- _ => discriminate H
           end;
    (split; [reflexivity |]); eexists; eexists;
    repeat split; try reflexivity; try assumption;
    match goal with
    | u : unit |- _ => destruct u; assumption
    end.
Qed.

Lemma updated_notice_is_truthful_witness :
  let E := Sample.env Pending in
  let push := createGoogleDoc E "Notes" "# Hello" in
  In MSG_UPDATED (notices (trace push (Sample.signed_in []))) /\
  result push (Sample.signed_in []) = Returned tt.
Proof.
  intros E push.
  assert (Hin : In MSG_UPDATED (notices (trace push (Sample.signed_in [])))).
  { left. reflexivity. }
  split; [exact Hin |].
  exact (proj1 (@updated_notice_is_truthful _ _ _ _ E "Notes" "# Hello"
                  (Sample.signed_in []) Hin)).
Defined.

(** [createGoogleDoc] writes at most once per call, and never without a
    conflict check that answered false: every [updateHtml] in its trace
    carries the given [content] and [wipe], goes to the document that
    [findOrCreateDoc] resolved, and follows a resolved
    [hasOpenComments] = false for that document. *)
Theorem write_needs_negative_check :
  forall (Client Server Json Remote : Type) (E : Env Client Server Json Remote)
         (title content : string) (w : World Server Remote)
         (d c : string) (a : option Client) (wipe : bool),
    let push := createGoogleDoc E title content in
    let w1 := after (getAuth E) w in
    let found :=
      findOrCreateDoc E title (googleDriveFolderId (settings w1)) a (remote w1) in
    In (d, c, a, wipe) (updates (trace push w)) ->
    updates (trace push w) = [(d, content, a, true)] /\
    c = content /\ wipe = true /\
    result (getAuth E) w = Returned a /\
    fst found = Resolved d /\
    hasOpenComments E a d (snd found) = Resolved false.
Proof.
  intros Client Server Json Remote E title content w d c a wipe push w1 found.
  subst push w1 found.
  run; simpl; intros H;
    repeat match goal with
           | H : _ \/ _ |- _ => destruct H
           | H : False |- _ => destruct H
           | H : (_, _) = (_, _) |- _ => inversion H; clear H; subst
           end;
    repeat split; try reflexivity; assumption.
Qed.

Lemma write_needs_negative_check_witness :
  let E := Sample.env Pending in
  let w := Sample.signed_in [] in
  let push := createGoogleDoc E "Notes" "# Hello" in
  updates (trace push w) = [(Sample.NOTES, "# Hello", Some Sample.CREDENTIALS, true)] /\
  hasOpenComments E (Some Sample.CREDENTIALS) Sample.NOTES
    (remote (after (openGoogleDoc E "Notes" "") w)) = Resolved false.
Proof.
  intros E w push.
  assert (Hin : In (Sample.NOTES, "# Hello", Some Sample.CREDENTIALS, true)
                   (updates (trace push w))).
  { left. reflexivity. }
  pose proof (@write_needs_negative_check _ _ _ _ E "Notes" "# Hello" w
                Sample.NOTES "# Hello" (Some Sample.CREDENTIALS) true Hin) as H.
  split; [exact (proj1 H) |].
  exact (proj2 (proj2 (proj2 (proj2 (proj2 H))))).
Defined.

(** The document methods authorize only through [getAuth]: they request
    no token, save nothing and, for [createGoogleDoc], launch no browser
    beyond what [getAuth] did, and [getAuth] requests at most one token
    per call. *)
Theorem authorization_only_in_getAuth :
  forall (Client Server Json Remote : Type) (E : Env Client Server Json Remote)
         (title content : string) (w : World Server Remote),
    let push := createGoogleDoc E title content in
    let open := openGoogleDoc E title content in
    token_requests (trace push w) = token_requests (trace (getAuth E) w) /\
    token_requests (trace open w) = token_requests (trace (getAuth E) w) /\
    saves (trace push w) = saves (trace (getAuth E) w) /\
    saves (trace open w) = saves (trace (getAuth E) w) /\
    launches (trace push w) = launches (trace (getAuth E) w) /\
    data (after push w) = data (after (getAuth E) w) /\
    data (after open w) = data (after (getAuth E) w) /\
    authorizationServer (after push w) = authorizationServer (after (getAuth E) w) /\
    authorizationServer (after open w) = authorizationServer (after (getAuth E) w) /\
    length (token_requests (trace (getAuth E) w)) <= 1.
Proof.
  intros Client Server Json Remote E title content w push open. subst push open.
  repeat split; try (run; reflexivity).
  apply getAuth_one_request.
Qed.

(** ** Links *)

(** Different documents have different links. *)
Theorem googleDocsUrl_injective :
  forall d d' : string, googleDocsUrl d = googleDocsUrl d' -> d = d'.
Proof.
  intros d d' H. unfold googleDocsUrl in H. simpl in H.
  repeat match type of H with
         | String _ _ = String _ _ => injection H as H
         end.
  exact H.
Qed.

Lemma googleDocsUrl_injective_witness :
  googleDocsUrl Sample.NOTES = googleDocsUrl (Sample.doc_id "Notes" "folder") /\
  Sample.NOTES = Sample.doc_id "Notes" "folder".
Proof.
  split; [reflexivity |].
  exact (@googleDocsUrl_injective Sample.NOTES (Sample.doc_id "Notes" "folder") eq_refl).
Defined.


(** ** The commands *)



(** ** The settings tab *)

(** Each control of the settings tab edits its own setting and nothing
    else: after its [onChange] the tab shows the new value in that
    control and the old values in the others, the settings have been
    handed to [saveData] once, and the data file holds them. *)
Theorem control_edits_its_own_setting :
  forall (Client Server Json Remote : Type)
         (w : World Server Remote) (i : nat)
         (c : Control Client Server Json Remote) (v : string),
    nth_error (@display Client Server Json Remote w) i = Some c ->
    let w' := after (control_onChange c v) w in
    result (control_onChange c v) w = Returned tt /\
    List.map (@control_value _ _ _ _) (@display Client Server Json Remote w') =
      firstn i (List.map (@control_value _ _ _ _) (@display Client Server Json Remote w)) ++
      v :: skipn (S i) (List.map (@control_value _ _ _ _) (@display Client Server Json Remote w)) /\
    trace (control_onChange c v) w = [SaveData (settings w')] /\
    data w' = Some (settings w') /\
    authorizationServer w' = authorizationServer w /\
    remote w' = remote w.
Proof.
  intros Client Server Json Remote w i c v H w'. subst w'.
  destruct i as [|[|[|i]]]; simpl in H;
    try (destruct i; discriminate H);
    injection H as H; subst c; simpl;
    repeat split; reflexivity.
Qed.

Lemma control_edits_its_own_setting_witness :
  let w := Sample.signed_in [] in
  let c := {| control_name := "Google Application Tokens";
              control_desc := "The token JSON for your Google Application.";
              control_placeholder := "Enter the JSON";
              control_textarea := true;
              control_value := tokens (settings w);
              control_onChange := @onChange_tokens string Z Sample.Json Sample.Drive |} in
  nth_error (@display string Z Sample.Json Sample.Drive w) 2 = Some c /\
  List.map (@control_value _ _ _ _) (@display string Z Sample.Json Sample.Drive (after (control_onChange c "{}") w)) =
    ["folder"; Sample.CREDENTIALS; "{}"].
Proof.
  intros w c.
  pose proof (@control_edits_its_own_setting string Z Sample.Json Sample.Drive
                w 2 c "{}" eq_refl) as H.
  split; [reflexivity |].
  exact (proj1 (proj2 H)).
Defined.

(** ** The two variants of the push command, side by side *)

(** On a store that reports no open comments, and with no server
    recorded, the earlier push command and the present one do the same:
    they leave the same plugin and store behind, and the calls of the
    earlier one are those of the present one without the conflict
    check. *)
Theorem variants_agree_without_comments :
  forall (Client Server Json Remote : Type) (E : Env Client Server Json Remote)
         (title content : string) (w : World Server Remote),
    authorizationServer w = None ->
    (forall a d r, hasOpenComments E a d r = Resolved false) ->
    let earlier := editorCallback (PUSH_COMMAND_inline E) title content in
    let present := editorCallback (PUSH_COMMAND E) title content in
    after earlier w = after present w /\
    trace earlier w = without_comment_checks (trace present w).
Proof.
  intros Client Server Json Remote E title content w Hg Hno earlier present.
  subst earlier present. unfold without_comment_checks.
  unfold_lifecycle; unfold_methods; unfold_monad; simpl.
  repeat (first [rewrite Hno | step]; simpl); split; reflexivity.
Qed.

Lemma variants_agree_without_comments_witness :
  let E := sample_quiet_env Pending in
  let w := Sample.signed_in [] in
  after (editorCallback (PUSH_COMMAND_inline E) "Notes" "# Hello") w =
  after (editorCallback (PUSH_COMMAND E) "Notes" "# Hello") w.
Proof.
  intros E w.
  exact (proj1 (@variants_agree_without_comments _ _ _ _ E "Notes" "# Hello" w
                  eq_refl (fun a d r => eq_refl))).
Defined.

(** Where they part.  On a document with open comments, with a valid
    cached token, the earlier variant overwrites the document and reports
    "Document updated.", while the present one leaves it alone and reports
    the open comments. *)
Theorem earlier_variant_overwrites_comments :
  forall (Client Server Json Remote : Type) (E : Env Client Server Json Remote)
         (title content d : string) (w : World Server Remote)
         (auth : Client) (t : Json),
    authorizationServer w = None ->
    getClient E (credentials (settings w)) = inr auth ->
    JSON_parse E (tokens (settings w)) = Some t ->
    hasValidToken E auth t = Resolved true ->
    let folder := googleDriveFolderId (settings w) in
    let found := findOrCreateDoc E title folder (Some auth) (remote w) in
    fst found = Resolved d ->
    hasOpenComments E (Some auth) d (snd found) = Resolved true ->
    fst (updateHtml E d content (Some auth) true (snd found)) = Resolved tt ->
    let earlier := createGoogleDoc_inline E (credentials (settings w)) folder title content in
    let present := createGoogleDoc E title content in
    updates (trace earlier w) = [(d, content, Some auth, true)] /\
    notices (trace earlier w) = [MSG_UPDATED] /\
    remote (after earlier w) = snd (updateHtml E d content (Some auth) true (snd found)) /\
    updates (trace present w) = [] /\
    notices (trace present w) = [MSG_OPEN_COMMENTS] /\
    remote (after present w) = snd found.
Proof.
  intros Client Server Json Remote E title content d w auth t Hg Hc Hp Hv
         folder found Hd Hcheck Hu earlier present.
  subst folder found earlier present.
  run. repeat split; reflexivity.
Qed.

Lemma earlier_variant_overwrites_comments_witness :
  let E := Sample.env Pending in
  let w := Sample.signed_in (Sample.notes "v1" true) in
  hasOpenComments E (Some Sample.CREDENTIALS) Sample.NOTES (remote w) = Resolved true /\
  remote (after (createGoogleDoc_inline E Sample.CREDENTIALS "folder" "Notes" "v2") w)
    = Sample.notes "v2" true /\
  remote (after (createGoogleDoc E "Notes" "v2") w) = Sample.notes "v1" true.
Proof.
  intros E w.
  pose proof (@earlier_variant_overwrites_comments _ _ _ _ E "Notes" "v2" Sample.NOTES
                w Sample.CREDENTIALS Sample.NEW_TOKENS
                eq_refl eq_refl eq_refl eq_refl eq_refl eq_refl eq_refl) as H.
  split; [reflexivity |].
  split; [exact (proj1 (proj2 (proj2 H))) |].
  exact (proj2 (proj2 (proj2 (proj2 (proj2 H))))).
Defined.

(** In the earlier variant, once [getNewToken] has handed over a server,
    whatever becomes of the token promise and of the push itself, every
    later push is a notice and nothing more: it calls neither the library
    nor the store and changes nothing. *)
Theorem earlier_variant_pushes_once :
  forall (Client Server Json Remote : Type) (E : Env Client Server Json Remote)
         (creds folderId title content : string) (w : World Server Remote)
         (auth : Client) (t : Json) (srv : Server) (url : string) (p : reply Json),
    authorizationServer w = None ->
    getClient E creds = inr auth ->
    JSON_parse E (tokens (settings w)) = Some t ->
    hasValidToken E auth t = Resolved false ->
    getNewToken E auth = Resolved (srv, url, p) ->
    let w' := after (createGoogleDoc_inline E creds folderId title content) w in
    authorizationServer w' = Some srv /\
    forall creds' folderId' title' content',
      createGoogleDoc_inline E creds' folderId' title' content' w' =
        (Returned tt, w', [Notice MSG_ALREADY]).
Proof.
  intros Client Server Json Remote E creds folderId title content w auth t srv url p
         Hg Hc Hp Hv Hn w'.
  assert (Hsrv : authorizationServer w' = Some srv).
  { subst w'. run; reflexivity. }
  split; [exact Hsrv |].
  intros creds' folderId' title' content'.
  apply inline_guarded with (srv := srv). exact Hsrv.
Qed.

Lemma earlier_variant_pushes_once_witness :
  let E := Sample.env (Resolved Sample.NEW_TOKENS) in
  let push := createGoogleDoc_inline E Sample.CREDENTIALS "folder" "Notes" in
  let w' := after (push "v1") Sample.signed_out in
  Sample.body (remote w') Sample.NOTES = Some "v1" /\
  push "v2" w' = (Returned tt, w', [Notice MSG_ALREADY]).
Proof.
  intros E push w'.
  pose proof (@earlier_variant_pushes_once _ _ _ _ E Sample.CREDENTIALS "folder"
                "Notes" "v1" Sample.signed_out Sample.CREDENTIALS (Sample.JObj [])
                Sample.PORT Sample.AUTHORIZE_URL (Resolved Sample.NEW_TOKENS)
                eq_refl eq_refl eq_refl eq_refl eq_refl) as H.
  split; [reflexivity |].
  exact (proj2 H Sample.CREDENTIALS "folder" "Notes" "v2").
Defined.
